(** * pywikitools.resourcesbot.data_structures

    A shallow embedding of [FileInfo], [WorksheetInfo], [LanguageInfo],
    [json_decode] and [WorksheetInfoEncoder] of
    [pywikitools/resourcesbot/data_structures.py], and the properties of the
    change detection ([LanguageInfo.compare]) and of the JSON codec.

    Python dictionaries keep their keys in insertion order and the code
    depends on that order ([compare], [list_worksheets_with_missing_pdf],
    the encoder's [values()]), so a dictionary is an association list here,
    with the uniqueness of its keys stated as [dict_wf]. *)

From Stdlib Require Import String Ascii List ZArith Bool Arith Lia Permutation.
Import ListNotations.
Local Open Scope string_scope.
Local Open Scope list_scope.

Set Implicit Arguments.
Set Warnings "-register-all".

(** ** Results of a call *)

(** The exceptions the modelled code can raise. *)
Inductive exn : Type :=
| AssertionError
| AttributeError
| TypeError
| KeyError.

(** A Python call either returns a value or raises.  The records below have
    the field types the source annotates ([file_type: str], [page: str],
    ...); Python does not enforce them, and a call that returns an object
    holding a value of another type (a [FileInfo] whose url is a number, say)
    returns [IllTyped]: the call did not raise, and its result has no
    counterpart in the records. *)
Inductive outcome (A : Type) : Type :=
| Ok (a : A)
| Raise (e : exn)
| IllTyped.

Arguments Raise {A} e.
Arguments IllTyped {A}.

Definition bind {A B : Type} (c : outcome A) (k : A -> outcome B) : outcome B :=
  match c with
  | Ok a => k a
  | Raise e => Raise e
  | IllTyped => IllTyped
  end.

Notation "x <- c ;; k" := (bind c (fun x => k))
  (at level 61, c at next level, right associativity).

(** [assert b] *)
Definition assert (b : bool) : outcome unit :=
  if b then Ok tt else Raise AssertionError.

(** A [for] loop whose body can raise, threading the loop's state. *)
Fixpoint foldM {A S : Type} (body : S -> A -> outcome S) (l : list A) (s : S)
  : outcome S :=
  match l with
  | [] => Ok s
  | a :: l' => s' <- body s a ;; foldM body l' s'
  end.

Fixpoint mapM {A B : Type} (f : A -> outcome B) (l : list A) : outcome (list B) :=
  match l with
  | [] => Ok []
  | a :: l' => b <- f a ;; bs <- mapM f l' ;; Ok (b :: bs)
  end.

(** ** Dictionaries with string keys *)

Definition dict (V : Type) : Type := list (string * V).

Section Dict.
Variable V : Type.

(** [k in d] *)
Fixpoint dict_mem (k : string) (d : dict V) : bool :=
  match d with
  | [] => false
  | (k', _) :: d' => if String.eqb k k' then true else dict_mem k d'
  end.

Fixpoint dict_get (k : string) (d : dict V) : option V :=
  match d with
  | [] => None
  | (k', v) :: d' => if String.eqb k k' then Some v else dict_get k d'
  end.

(** [d[k]] *)
Definition dict_index (k : string) (d : dict V) : outcome V :=
  match dict_get k d with
  | Some v => Ok v
  | None => Raise KeyError
  end.

(** [d[k] = v]: an existing key keeps its place, a new key goes last. *)
Fixpoint dict_set (k : string) (v : V) (d : dict V) : dict V :=
  match d with
  | [] => [(k, v)]
  | (k', v') :: d' =>
      if String.eqb k k' then (k, v) :: d' else (k', v') :: dict_set k v d'
  end.

Definition dict_keys (d : dict V) : list string := map fst d.
Definition dict_values (d : dict V) : list V := map snd d.
Definition dict_items (d : dict V) : list (string * V) := d.

(** [bool(d)]: a dictionary is true when it is not empty. *)
Definition dict_truthy (d : dict V) : bool :=
  match d with [] => false | _ :: _ => true end.

(** What every Python dictionary satisfies: no key occurs twice. *)
Definition dict_wf (d : dict V) : Prop := NoDup (dict_keys d).
End Dict.

(** ** Strings *)

(** [s.replace(c, by)] for a pattern of one character. *)
Fixpoint str_replace (c : ascii) (by_ : string) (s : string) : string :=
  match s with
  | EmptyString => EmptyString
  | String a s' =>
      if Ascii.eqb a c then (by_ ++ str_replace c by_ s')%string
      else String a (str_replace c by_ s')
  end.

(** Iterating over a string yields its characters as strings of length one. *)
Fixpoint str_chars (s : string) : list string :=
  match s with
  | EmptyString => []
  | String a s' => String a EmptyString :: str_chars s'
  end.

(** ** The libraries the module imports *)

(** [datetime.datetime] and [urllib.parse.unquote] are not part of the
    repository; the model takes them as an interface.  [fromisoformat]
    returns [None] where Python raises [ValueError]; [epoch] is
    [datetime(1970, 1, 1)]. *)
Class PyLib : Type := {
  datetime : Type;
  fromisoformat : string -> option datetime;
  isoformat : datetime -> string;
  epoch : datetime;
  unquote : string -> string
}.

(** ** Collaborators of the module that live elsewhere in the repository *)

(** Modelled from the spec: the change events of
    [pywikitools.resourcesbot.changes] (that module is not among the
    sources).  The spec names the six kinds [compare] emits and the three
    reserved ones. *)
Inductive ChangeType : Type :=
| NEW_WORKSHEET
| NEW_PDF
| NEW_ODT
| UPDATED_WORKSHEET
| UPDATED_PDF
| UPDATED_ODT
| DELETED_WORKSHEET
| DELETED_PDF
| DELETED_ODT.

Record ChangeItem : Type := mkChangeItem {
  worksheet : string;
  change_type : ChangeType
}.

(** Modelled from the spec: [ChangeLog], "an ordered collection of change
    events"; [add_change] puts one event after those already there. *)
Definition ChangeLog : Type := list ChangeItem.

Definition ChangeLog_init : ChangeLog := [].

Definition add_change (name : string) (t : ChangeType) (log : ChangeLog)
  : ChangeLog :=
  log ++ [mkChangeItem name t].

Definition ChangeType_eq_dec (a b : ChangeType) : {a = b} + {a <> b}.
Proof. decide equality. Defined.

Definition ChangeItem_eq_dec (a b : ChangeItem) : {a = b} + {a <> b}.
Proof. decide equality; [apply ChangeType_eq_dec | apply string_dec]. Defined.

(** Modelled from the spec: the progress record of
    [pywikitools.fortraininglib] (not among the sources), holding the
    translated, fuzzy and total unit counts. *)
Record TranslationProgress : Type := mkTranslationProgress {
  translated : Z;
  fuzzy : Z;
  total : Z
}.

(** ** The data model *)

Section Model.
Context `{L : PyLib}.

Record FileInfo : Type := mkFileInfo {
  file_type : string;
  url : string;
  timestamp : datetime
}.

Record WorksheetInfo : Type := mkWorksheetInfo {
  page : string;
  ws_language_code : string;
  title : string;
  progress : TranslationProgress;
  _files : dict FileInfo
}.

Record LanguageInfo : Type := mkLanguageInfo {
  language_code : string;
  worksheets : dict WorksheetInfo
}.

(** What [pywikibot.page.FileInfo] gives the module: a url and a
    [pywikibot.Timestamp], which is a [datetime]. *)
Record pywikibot_FileInfo : Type := mkPywikibotFileInfo {
  pwb_url : string;
  pwb_timestamp : datetime
}.

(** The values that reach the code as [Any]: what a JSON document parses
    to (floating-point numbers are left out), a [datetime], and the four
    kinds of objects [json_decode] builds. *)
Inductive value : Type :=
| VNone
| VBool (b : bool)
| VInt (n : Z)
| VStr (s : string)
| VList (l : list value)
| VDict (d : list (string * value))
| VDatetime (t : datetime)
| VFileInfo (f : FileInfo)
| VProgress (p : TranslationProgress)
| VWorksheetInfo (w : WorksheetInfo)
| VLanguageInfo (l : LanguageInfo).

(** A value where the source expects a [str]. *)
Definition as_str (v : value) : option string :=
  match v with VStr s => Some s | _ => None end.

Definition as_int (v : value) : option Z :=
  match v with VInt n => Some n | _ => None end.

(** [for x in v]: lists yield their elements, strings their characters,
    dictionaries their keys; nothing else here is iterable. *)
Definition py_iter (v : value) : outcome (list value) :=
  match v with
  | VList l => Ok l
  | VStr s => Ok (map VStr (str_chars s))
  | VDict d => Ok (map VStr (dict_keys d))
  | _ => Raise TypeError
  end.

(** *** FileInfo *)

(** The timestamp [FileInfo.__init__] stores.  A [datetime] is kept; on
    anything else the code calls [.replace('Z', '+00:00')], a method only
    strings have here, and parses the result, falling back to [epoch] on
    [ValueError]. *)
Definition FileInfo_timestamp (timestamp : value) : outcome datetime :=
  match timestamp with
  | VDatetime t => Ok t
  | VStr s =>
      match fromisoformat (str_replace "Z"%char "+00:00" s) with
      | Some t => Ok t
      | None => Ok epoch
      end
  | _ => Raise AttributeError
  end.

Definition FileInfo_init (file_type url timestamp : value) : outcome FileInfo :=
  t <- FileInfo_timestamp timestamp ;;
  match as_str file_type, as_str url with
  | Some ft, Some u => Ok (mkFileInfo ft u t)
  | _, _ => IllTyped
  end.

(** Modelled from the spec: the constructor of the progress record, called
    with the mapping as keyword arguments, builds the record "from the
    mapping's fields directly".  A call without one of the three counts is a
    Python call that misses an argument. *)
Definition TranslationProgress_init (data : dict value)
  : outcome TranslationProgress :=
  match dict_get "translated" data, dict_get "fuzzy" data,
        dict_get "total" data with
  | Some t, Some f, Some n =>
      match as_int t, as_int f, as_int n with
      | Some t, Some f, Some n => Ok (mkTranslationProgress t f n)
      | _, _, _ => IllTyped
      end
  | _, _, _ => Raise TypeError
  end.

(** *** WorksheetInfo *)

Definition WorksheetInfo_init (page language_code title : string)
  (progress : TranslationProgress) : WorksheetInfo :=
  mkWorksheetInfo page language_code title progress [].

Definition set_files (self : WorksheetInfo) (files : dict FileInfo)
  : WorksheetInfo :=
  mkWorksheetInfo (page self) (ws_language_code self) (title self)
                  (progress self) files.

(** [add_file_info(file_info, file_type, from_pywikibot)], returning the
    worksheet after the call. *)
Definition add_file_info (file_info : option FileInfo)
  (file_type' : option string) (from_pywikibot : option pywikibot_FileInfo)
  (self : WorksheetInfo) : outcome WorksheetInfo :=
  match file_info with
  | Some fi => Ok (set_files self (dict_set (file_type fi) fi (_files self)))
  | None =>
      match file_type', from_pywikibot with
      | Some ft, Some pwb =>
          fi <- FileInfo_init (VStr ft) (VStr (unquote (pwb_url pwb)))
                              (VDatetime (pwb_timestamp pwb)) ;;
          Ok (set_files self (dict_set ft fi (_files self)))
      | _, _ => Raise AssertionError
      end
  end.

Definition get_file_infos (self : WorksheetInfo) : dict FileInfo :=
  _files self.

Definition has_file_type (self : WorksheetInfo) (file_type' : string) : bool :=
  dict_mem file_type' (_files self).

Definition get_file_type_info (self : WorksheetInfo) (file_type' : string)
  : option FileInfo :=
  if dict_mem file_type' (_files self)
  then dict_get file_type' (_files self)
  else None.

(** The object after a call: a call that raises leaves it as it was. *)
Definition after {A : Type} (call : A -> outcome A) (self : A) : A :=
  match call self with
  | Ok self' => self'
  | _ => self
  end.

(** A call of [add_file_info] with its three optional arguments. *)
Record add_file_info_call : Type := mkCall {
  arg_file_info : option FileInfo;
  arg_file_type : option string;
  arg_from_pywikibot : option pywikibot_FileInfo
}.

Definition run_call (self : WorksheetInfo) (c : add_file_info_call)
  : WorksheetInfo :=
  after (add_file_info (arg_file_info c) (arg_file_type c)
                       (arg_from_pywikibot c)) self.

Definition run_calls (calls : list add_file_info_call) (self : WorksheetInfo)
  : WorksheetInfo :=
  fold_left run_call calls self.

(** *** LanguageInfo *)

Definition LanguageInfo_init (language_code : string) : LanguageInfo :=
  mkLanguageInfo language_code [].

Definition add_worksheet_info (name : string) (worksheet_info : WorksheetInfo)
  (self : LanguageInfo) : LanguageInfo :=
  mkLanguageInfo (language_code self)
                 (dict_set name worksheet_info (worksheets self)).

Definition has_worksheet (self : LanguageInfo) (name : string) : bool :=
  dict_mem name (worksheets self).

Definition get_worksheet (self : LanguageInfo) (name : string)
  : option WorksheetInfo :=
  if dict_mem name (worksheets self)
  then dict_get name (worksheets self)
  else None.

Definition worksheet_has_type (self : LanguageInfo) (name file_type' : string)
  : bool :=
  if dict_mem name (worksheets self) then
    match dict_get name (worksheets self) with
    | Some w => has_file_type w file_type'
    | None => false
    end
  else false.

(** [old.worksheets[title].has_file_type(file_type)] *)
Definition old_has_file_type (old : LanguageInfo) (title file_type' : string)
  : outcome bool :=
  w <- dict_index title (worksheets old) ;;
  Ok (has_file_type w file_type').

(** The body of the first loop of [compare]. *)
Definition compare_worksheet (old : LanguageInfo) (change_log : ChangeLog)
  (item : string * WorksheetInfo) : outcome ChangeLog :=
  let (title, info) := item in
  if dict_mem title (worksheets old) then
    change_log <-
      (if has_file_type info "pdf" then
         old_pdf <- old_has_file_type old title "pdf" ;;
         if negb old_pdf then Ok (add_change title NEW_PDF change_log)
         else Ok change_log
       else
         old_pdf <- old_has_file_type old title "pdf" ;;
         if old_pdf then Ok (add_change title DELETED_PDF change_log)
         else Ok change_log) ;;
    (if has_file_type info "odt" then
       old_odt <- old_has_file_type old title "odt" ;;
       if negb old_odt then Ok (add_change title NEW_ODT change_log)
       else Ok change_log
     else
       old_odt <- old_has_file_type old title "odt" ;;
       if old_odt then Ok (add_change title DELETED_ODT change_log)
       else Ok change_log)
  else Ok (add_change title NEW_WORKSHEET change_log).

(** The body of the second loop of [compare]. *)
Definition compare_deleted (self : LanguageInfo) (change_log : ChangeLog)
  (worksheet : string) : outcome ChangeLog :=
  if negb (dict_mem worksheet (worksheets self))
  then Ok (add_change worksheet DELETED_WORKSHEET change_log)
  else Ok change_log.

(** [self.compare(old)]; the warning the code logs is not modelled. *)
Definition compare (self : LanguageInfo) (old : value) : outcome ChangeLog :=
  let change_log := ChangeLog_init in
  match old with
  | VLanguageInfo old =>
      change_log <- foldM (compare_worksheet old)
                          (dict_items (worksheets self)) change_log ;;
      change_log <- foldM (compare_deleted self)
                          (dict_keys (worksheets old)) change_log ;;
      Ok change_log
  | _ => Ok change_log
  end.

(** The list comprehension of [list_worksheets_with_missing_pdf]. *)
Definition list_worksheets_with_missing_pdf (self : LanguageInfo)
  : outcome (list string) :=
  foldM (fun acc worksheet =>
           w <- dict_index worksheet (worksheets self) ;;
           if negb (has_file_type w "pdf") then Ok (acc ++ [worksheet])
           else Ok acc)
        (dict_keys (worksheets self)) [].

Definition count_finished_translations (self : LanguageInfo) : Z :=
  fold_left (fun count worksheet_info =>
               if has_file_type worksheet_info "pdf" then (count + 1)%Z
               else count)
            (dict_values (worksheets self)) 0%Z.

(** *** json_decode *)

(** An object under construction from untyped values: [None] once a field
    received a value of a type the annotations exclude.  The calls on it
    still run, and so do the assertions around them. *)
Definition on_object {A : Type} (call : A -> outcome A) (o : option A)
  : outcome (option A) :=
  match o with
  | Some a => a' <- call a ;; Ok (Some a')
  | None => Ok None
  end.

Definition return_object {A : Type} (wrap : A -> value) (o : option A)
  : outcome value :=
  match o with
  | Some a => Ok (wrap a)
  | None => IllTyped
  end.

(** [WorksheetInfo(page, language_code, title, progress)] on values. *)
Definition WorksheetInfo_of_values (page' language_code' title' : value)
  (progress' : TranslationProgress) : option WorksheetInfo :=
  match as_str page', as_str language_code', as_str title' with
  | Some p, Some lc, Some t => Some (WorksheetInfo_init p lc t progress')
  | _, _, _ => None
  end.

(** The loop of [json_decode] over the entries of [data["files"]]: each
    must be a [FileInfo] and is added to the worksheet. *)
Definition files_loop (entries : list value) (worksheet_info : option WorksheetInfo)
  : outcome (option WorksheetInfo) :=
  foldM (fun worksheet_info file_info =>
           match file_info with
           | VFileInfo f =>
               on_object (add_file_info (Some f) None None) worksheet_info
           | _ => Raise AssertionError
           end)
        entries worksheet_info.

(** The loop of [json_decode] over the entries of [data["worksheets"]]:
    each must be a [WorksheetInfo] and is added under its page. *)
Definition worksheets_loop (entries : list value) (language_info : option LanguageInfo)
  : outcome (option LanguageInfo) :=
  foldM (fun language_info worksheet' =>
           match worksheet' with
           | VWorksheetInfo w =>
               on_object (fun li => Ok (add_worksheet_info (page w) w li))
                         language_info
           | _ => Raise AssertionError
           end)
        entries language_info.

Definition json_decode (data : dict value) : outcome value :=
  if dict_mem "file_type" data then
    _ <- assert (dict_mem "url" data && dict_mem "timestamp" data) ;;
    ft <- dict_index "file_type" data ;;
    u <- dict_index "url" data ;;
    ts <- dict_index "timestamp" data ;;
    f <- FileInfo_init ft u ts ;;
    Ok (VFileInfo f)
  else if dict_mem "translated" data then
    p <- TranslationProgress_init data ;;
    Ok (VProgress p)
  else if dict_mem "page" data then
    _ <- assert (dict_mem "language_code" data && dict_mem "title" data
                 && dict_mem "progress" data) ;;
    progress' <- dict_index "progress" data ;;
    match progress' with
    | VProgress p =>
        page' <- dict_index "page" data ;;
        language_code' <- dict_index "language_code" data ;;
        title' <- dict_index "title" data ;;
        let worksheet_info :=
          WorksheetInfo_of_values page' language_code' title' p in
        worksheet_info <-
          (if dict_mem "files" data then
             files <- dict_index "files" data ;;
             entries <- py_iter files ;;
             files_loop entries worksheet_info
           else Ok worksheet_info) ;;
        return_object VWorksheetInfo worksheet_info
    | _ => Raise AssertionError
    end
  else if dict_mem "worksheets" data then
    _ <- assert (dict_mem "language_code" data) ;;
    language_code' <- dict_index "language_code" data ;;
    let language_info := option_map LanguageInfo_init (as_str language_code') in
    worksheets' <- dict_index "worksheets" data ;;
    entries <- py_iter worksheets' ;;
    language_info <- worksheets_loop entries language_info ;;
    return_object VLanguageInfo language_info
  else Ok (VDict data).

(** *** The JSON tree and the two directions of the codec *)

(** A parsed JSON document; an object keeps its members in the order of
    the text. *)
Inductive json : Type :=
| JNull
| JBool (b : bool)
| JInt (n : Z)
| JStr (s : string)
| JArray (items : list json)
| JObject (members : list (string * json)).

(** [dict(pairs)] *)
Definition dict_of_pairs {V : Type} (pairs : list (string * V)) : dict V :=
  fold_left (fun d kv => dict_set (fst kv) (snd kv) d) pairs [].

(** [json.loads(..., object_hook=json_decode)] on the parsed tree: the
    members of an object are decoded first, then the hook receives the
    dictionary made of them, and its result stands for the object.
    [IllTyped] from a member is passed on: an object outside the
    annotated records was built on the way, and what Python goes on to do
    with it (the decoding continues, and may still raise) is not followed. *)
Fixpoint json_loads (j : json) : outcome value :=
  match j with
  | JNull => Ok VNone
  | JBool b => Ok (VBool b)
  | JInt n => Ok (VInt n)
  | JStr s => Ok (VStr s)
  | JArray items =>
      vs <- (fix loads_items (l : list json) : outcome (list value) :=
               match l with
               | [] => Ok []
               | x :: l' =>
                   v <- json_loads x ;;
                   vs <- loads_items l' ;;
                   Ok (v :: vs)
               end) items ;;
      Ok (VList vs)
  | JObject members =>
      pairs <- (fix loads_members (l : list (string * json))
                  : outcome (list (string * value)) :=
                  match l with
                  | [] => Ok []
                  | (k, x) :: l' =>
                      v <- json_loads x ;;
                      ps <- loads_members l' ;;
                      Ok ((k, v) :: ps)
                  end) members ;;
      json_decode (dict_of_pairs pairs)
  end.

(** [WorksheetInfoEncoder.default]; the base class raises [TypeError]. *)
Definition default (obj : value) : outcome (dict value) :=
  match obj with
  | VLanguageInfo o =>
      Ok [("language_code", VStr (language_code o));
          ("worksheets", VList (map VWorksheetInfo (dict_values (worksheets o))))]
  | VWorksheetInfo o =>
      let worksheet_json :=
        [("page", VStr (page o));
         ("language_code", VStr (ws_language_code o));
         ("title", VStr (title o));
         ("progress", VProgress (progress o))] in
      let file_infos := get_file_infos o in
      if dict_truthy file_infos
      then Ok (dict_set "files" (VList (map VFileInfo (dict_values file_infos)))
                        worksheet_json)
      else Ok worksheet_json
  | VFileInfo o =>
      Ok [("file_type", VStr (file_type o));
          ("url", VStr (url o));
          ("timestamp", VStr (isoformat (timestamp o)))]
  | VProgress o =>
      Ok [("translated", VInt (translated o));
          ("fuzzy", VInt (fuzzy o));
          ("total", VInt (total o))]
  | _ => Raise TypeError
  end.

(** The trees of the four kinds of objects: what [default] returns, with
    the objects inside it encoded in turn. *)
Definition json_of_FileInfo (o : FileInfo) : json :=
  JObject [("file_type", JStr (file_type o));
           ("url", JStr (url o));
           ("timestamp", JStr (isoformat (timestamp o)))].

Definition json_of_progress (o : TranslationProgress) : json :=
  JObject [("translated", JInt (translated o));
           ("fuzzy", JInt (fuzzy o));
           ("total", JInt (total o))].

Definition json_of_WorksheetInfo (o : WorksheetInfo) : json :=
  JObject
    ([("page", JStr (page o));
      ("language_code", JStr (ws_language_code o));
      ("title", JStr (title o));
      ("progress", json_of_progress (progress o))]
     ++ (if dict_truthy (get_file_infos o)
         then [("files",
                JArray (map json_of_FileInfo (dict_values (get_file_infos o))))]
         else [])).

Definition json_of_LanguageInfo (o : LanguageInfo) : json :=
  JObject [("language_code", JStr (language_code o));
           ("worksheets",
            JArray (map json_of_WorksheetInfo (dict_values (worksheets o))))].

(** The encoder on a value: JSON data goes through, an object is replaced by
    the encoding of what [default] returns for it ([encode_default] below),
    and a [datetime] is not serializable. *)
Fixpoint encode (v : value) : outcome json :=
  match v with
  | VNone => Ok JNull
  | VBool b => Ok (JBool b)
  | VInt n => Ok (JInt n)
  | VStr s => Ok (JStr s)
  | VList l =>
      js <- (fix encode_items (l : list value) : outcome (list json) :=
               match l with
               | [] => Ok []
               | x :: l' =>
                   j <- encode x ;;
                   js <- encode_items l' ;;
                   Ok (j :: js)
               end) l ;;
      Ok (JArray js)
  | VDict d =>
      ms <- (fix encode_members (l : list (string * value))
               : outcome (list (string * json)) :=
               match l with
               | [] => Ok []
               | (k, x) :: l' =>
                   j <- encode x ;;
                   ms <- encode_members l' ;;
                   Ok ((k, j) :: ms)
               end) d ;;
      Ok (JObject ms)
  | VDatetime _ => Raise TypeError
  | VFileInfo o => Ok (json_of_FileInfo o)
  | VProgress o => Ok (json_of_progress o)
  | VWorksheetInfo o => Ok (json_of_WorksheetInfo o)
  | VLanguageInfo o => Ok (json_of_LanguageInfo o)
  end.

(** *** Predicates of the statements *)

(** Every file is stored under its own type. *)
Definition files_keyed (d : dict FileInfo) : Prop :=
  forall k f, In (k, f) d -> file_type f = k.

(** What the lookups see: a file found under a key has that type. *)
Definition files_by_type (w : WorksheetInfo) : Prop :=
  forall k f, dict_get k (_files w) = Some f -> file_type f = k.

(** Every worksheet is stored under its own page name. *)
Definition worksheets_keyed (d : dict WorksheetInfo) : Prop :=
  forall k w, In (k, w) d -> page w = k.

(** The timestamp that comes back from the codec: the encoder writes the
    ISO text of [t], and the constructor parses that text after rewriting
    its Z's, with the fallback where it does not parse. *)
Definition decoded_timestamp (t : datetime) : datetime :=
  match fromisoformat (str_replace "Z"%char "+00:00" (isoformat t)) with
  | Some t' => t'
  | None => epoch
  end.

(** An object as it comes back: every field as it was, but for the
    timestamps of the files. *)
Definition decoded_FileInfo (f : FileInfo) : FileInfo :=
  mkFileInfo (file_type f) (url f) (decoded_timestamp (timestamp f)).

Definition decoded_WorksheetInfo (w : WorksheetInfo) : WorksheetInfo :=
  mkWorksheetInfo (page w) (ws_language_code w) (title w) (progress w)
    (map (fun item => (fst item, decoded_FileInfo (snd item))) (_files w)).



(** What holds of every worksheet built by the constructor and
    [add_file_info] ([WorksheetInfo_reachable_wf] below). *)
Definition WorksheetInfo_wf (w : WorksheetInfo) : Prop :=
  dict_wf (_files w) /\ files_keyed (_files w).



(** The timestamps of the files of a worksheet, and of all worksheets, are
    those that come back. *)
Definition file_timestamps_kept (w : WorksheetInfo) : Prop :=
  forall t f, In (t, f) (_files w) ->
              decoded_timestamp (timestamp f) = timestamp f.


(** [isinstance(v, ...)] *)
Definition is_LanguageInfo (v : value) : bool :=
  match v with VLanguageInfo _ => true | _ => false end.

Definition is_WorksheetInfo (v : value) : bool :=
  match v with VWorksheetInfo _ => true | _ => false end.

Definition is_FileInfo (v : value) : bool :=
  match v with VFileInfo _ => true | _ => false end.

Definition is_TranslationProgress (v : value) : bool :=
  match v with VProgress _ => true | _ => false end.

Definition is_str (v : value) : bool :=
  match v with VStr _ => true | _ => false end.

(** *** What [json_decode] does, case by case

    [decode_spec data r]: [r] is the result for the mapping [data].  The
    kind of object is chosen by the first of the keys [file_type],
    [translated], [page], [worksheets] the mapping has.  Besides the
    objects and the AssertionError of a failed check, the cases hold what
    the checks of the code let through: the TypeError of a value under
    [files] or [worksheets] that cannot be iterated, and the object outside
    the annotated records ([IllTyped]) of a page, language code or title
    that is not a string. *)

Definition add_files (fs : list FileInfo) (w : WorksheetInfo) : WorksheetInfo :=
  fold_left (fun w f => set_files w (dict_set (file_type f) f (_files w))) fs w.

Definition add_worksheets (ws : list WorksheetInfo) (x : LanguageInfo)
  : LanguageInfo :=
  fold_left (fun x w => add_worksheet_info (page w) w x) ws x.

(** The files of a worksheet mapping: none without the key [files],
    otherwise the entries, all of them decoded [FileInfo]s. *)
Definition files_spec (data : dict value) (fs : list FileInfo) : Prop :=
  (dict_mem "files" data = false /\ fs = [])
  \/ (exists files, dict_get "files" data = Some files
                    /\ py_iter files = Ok (map VFileInfo fs)).

(** A mapping with the key [page]. *)
Inductive worksheet_spec (data : dict value) : outcome value -> Prop :=
| ws_missing_key :
    dict_mem "language_code" data && dict_mem "title" data
    && dict_mem "progress" data = false ->
    worksheet_spec data (Raise AssertionError)
| ws_raw_progress v :
    dict_mem "language_code" data = true ->
    dict_mem "title" data = true ->
    dict_get "progress" data = Some v ->
    is_TranslationProgress v = false ->
    worksheet_spec data (Raise AssertionError)
| ws_entry_not_FileInfo p files entries :
    dict_mem "language_code" data = true ->
    dict_mem "title" data = true ->
    dict_get "progress" data = Some (VProgress p) ->
    dict_get "files" data = Some files ->
    py_iter files = Ok entries ->
    forallb is_FileInfo entries = false ->
    worksheet_spec data (Raise AssertionError)
| ws_files_not_iterable p files e :
    dict_mem "language_code" data = true ->
    dict_mem "title" data = true ->
    dict_get "progress" data = Some (VProgress p) ->
    dict_get "files" data = Some files ->
    py_iter files = Raise e ->
    worksheet_spec data (Raise e)
| ws_built page' lc title' p fs :
    dict_get "page" data = Some (VStr page') ->
    dict_get "language_code" data = Some (VStr lc) ->
    dict_get "title" data = Some (VStr title') ->
    dict_get "progress" data = Some (VProgress p) ->
    files_spec data fs ->
    worksheet_spec data
      (Ok (VWorksheetInfo (add_files fs (WorksheetInfo_init page' lc title' p))))
| ws_ill_typed page' lc title' p fs :
    dict_get "page" data = Some page' ->
    dict_get "language_code" data = Some lc ->
    dict_get "title" data = Some title' ->
    dict_get "progress" data = Some (VProgress p) ->
    files_spec data fs ->
    is_str page' && is_str lc && is_str title' = false ->
    worksheet_spec data IllTyped.

(** A mapping with the key [worksheets]. *)
Inductive language_spec (data : dict value) : outcome value -> Prop :=
| li_missing_key :
    dict_mem "language_code" data = false ->
    language_spec data (Raise AssertionError)
| li_entry_not_WorksheetInfo ws entries :
    dict_mem "language_code" data = true ->
    dict_get "worksheets" data = Some ws ->
    py_iter ws = Ok entries ->
    forallb is_WorksheetInfo entries = false ->
    language_spec data (Raise AssertionError)
| li_not_iterable ws e :
    dict_mem "language_code" data = true ->
    dict_get "worksheets" data = Some ws ->
    py_iter ws = Raise e ->
    language_spec data (Raise e)
| li_built lc ws wl :
    dict_get "language_code" data = Some (VStr lc) ->
    dict_get "worksheets" data = Some ws ->
    py_iter ws = Ok (map VWorksheetInfo wl) ->
    language_spec data
      (Ok (VLanguageInfo (add_worksheets wl (LanguageInfo_init lc))))
| li_ill_typed lc ws wl :
    dict_get "language_code" data = Some lc ->
    dict_get "worksheets" data = Some ws ->
    py_iter ws = Ok (map VWorksheetInfo wl) ->
    is_str lc = false ->
    language_spec data IllTyped.

Inductive decode_spec (data : dict value) : outcome value -> Prop :=
| spec_FileInfo_incomplete :
    dict_mem "file_type" data = true ->
    dict_mem "url" data && dict_mem "timestamp" data = false ->
    decode_spec data (Raise AssertionError)
| spec_FileInfo ft u ts :
    dict_get "file_type" data = Some ft ->
    dict_get "url" data = Some u ->
    dict_get "timestamp" data = Some ts ->
    decode_spec data (f <- FileInfo_init ft u ts ;; Ok (VFileInfo f))
| spec_progress :
    dict_mem "file_type" data = false ->
    dict_mem "translated" data = true ->
    decode_spec data (p <- TranslationProgress_init data ;; Ok (VProgress p))
| spec_WorksheetInfo r :
    dict_mem "file_type" data = false ->
    dict_mem "translated" data = false ->
    dict_mem "page" data = true ->
    worksheet_spec data r ->
    decode_spec data r
| spec_LanguageInfo r :
    dict_mem "file_type" data = false ->
    dict_mem "translated" data = false ->
    dict_mem "page" data = false ->
    dict_mem "worksheets" data = true ->
    language_spec data r ->
    decode_spec data r
| spec_unchanged :
    dict_mem "file_type" data = false ->
    dict_mem "translated" data = false ->
    dict_mem "page" data = false ->
    dict_mem "worksheets" data = false ->
    decode_spec data (Ok (VDict data)).

(** Which events [compare] is to emit, in the words of the description:
    a worksheet that is new, one that is gone, and for a worksheet on both
    sides a file type that is new or gone. *)
Definition expected_event (self old : LanguageInfo) (e : ChangeItem) : bool :=
  let w := worksheet e in
  let both := has_worksheet self w && has_worksheet old w in
  match change_type e with
  | NEW_WORKSHEET => has_worksheet self w && negb (has_worksheet old w)
  | DELETED_WORKSHEET => has_worksheet old w && negb (has_worksheet self w)
  | NEW_PDF =>
      both && worksheet_has_type self w "pdf"
      && negb (worksheet_has_type old w "pdf")
  | DELETED_PDF =>
      both && negb (worksheet_has_type self w "pdf")
      && worksheet_has_type old w "pdf"
  | NEW_ODT =>
      both && worksheet_has_type self w "odt"
      && negb (worksheet_has_type old w "odt")
  | DELETED_ODT =>
      both && negb (worksheet_has_type self w "odt")
      && worksheet_has_type old w "odt"
  | UPDATED_WORKSHEET | UPDATED_PDF | UPDATED_ODT => false
  end.

(** The events of one worksheet of [self], and the deletions, as lists. *)
Definition file_events (title : string) (new_t del_t : ChangeType)
  (now before : bool) : list ChangeItem :=
  match now, before with
  | true, false => [mkChangeItem title new_t]
  | false, true => [mkChangeItem title del_t]
  | _, _ => []
  end.

Definition worksheet_events (old : LanguageInfo)
  (item : string * WorksheetInfo) : list ChangeItem :=
  match dict_get (fst item) (worksheets old) with
  | None => [mkChangeItem (fst item) NEW_WORKSHEET]
  | Some before =>
      file_events (fst item) NEW_PDF DELETED_PDF
                  (has_file_type (snd item) "pdf") (has_file_type before "pdf")
      ++ file_events (fst item) NEW_ODT DELETED_ODT
                     (has_file_type (snd item) "odt") (has_file_type before "odt")
  end.

Definition deleted_events (self old : LanguageInfo) : list ChangeItem :=
  map (fun name => mkChangeItem name DELETED_WORKSHEET)
      (filter (fun name => negb (has_worksheet self name))
              (dict_keys (worksheets old))).
End Model.

(** ** A small library instance and test data *)

(** A time point stands for its ISO text: [fromisoformat] accepts the shapes
    [YYYY-MM-DDTHH:MM:SS] and [YYYY-MM-DDTHH:MM:SS+HH:MM] and nothing else,
    and [unquote] is taken on urls without escapes. *)
Definition is_digit (a : ascii) : bool :=
  ((48 <=? nat_of_ascii a) && (nat_of_ascii a <=? 57))%nat.

(** [shape_ok shape s]: [s] follows [shape], where a [d] stands for a digit. *)
Fixpoint shape_ok (shape s : string) : bool :=
  match shape, s with
  | EmptyString, EmptyString => true
  | String p shape', String a s' =>
      (if Ascii.eqb p "d"%char then is_digit a else Ascii.eqb p a)
      && shape_ok shape' s'
  | _, _ => false
  end.

Definition iso_fromisoformat (s : string) : option string :=
  if shape_ok "dddd-dd-ddTdd:dd:dd" s || shape_ok "dddd-dd-ddTdd:dd:dd+dd:dd" s
  then Some s
  else None.

Definition iso_text : PyLib := {|
  datetime := string;
  fromisoformat := iso_fromisoformat;
  isoformat := fun t => t;
  epoch := "1970-01-01T00:00:00";
  unquote := fun s => s
|}.

Module Sample.
Definition done : TranslationProgress := mkTranslationProgress 12 0 12.
Definition partial : TranslationProgress := mkTranslationProgress 7 1 12.

Definition pdf (name : string) : @FileInfo iso_text :=
  @mkFileInfo iso_text "pdf" ("https://www.4training.net/" ++ name ++ ".pdf")
              "2021-03-04T10:20:30".

Definition odt (name : string) : @FileInfo iso_text :=
  @mkFileInfo iso_text "odt" ("https://www.4training.net/" ++ name ++ ".odt")
              "2021-03-04T10:20:31+00:00".

(** A worksheet of the German site with the given files. *)
Definition sheet (name : string) (p : TranslationProgress)
  (files : list (@FileInfo iso_text)) : @WorksheetInfo iso_text :=
  fold_left (fun w f => set_files w (dict_set (file_type f) f (_files w)))
            files (WorksheetInfo_init name "de" (name ++ " (de)") p).

(** Now: Forgiveness with pdf and odt, Prayer without files, Healing with
    a pdf. *)
Definition now : @LanguageInfo iso_text :=
  add_worksheet_info "Healing" (sheet "Healing" done [pdf "Healing"])
    (add_worksheet_info "Prayer" (sheet "Prayer" partial [])
      (add_worksheet_info "Forgiveness"
         (sheet "Forgiveness" done [pdf "Forgiveness"; odt "Forgiveness"])
         (LanguageInfo_init "de"))).

(** Before: Anger, Forgiveness without its odt, Prayer with a pdf. *)
Definition before : @LanguageInfo iso_text :=
  add_worksheet_info "Prayer" (sheet "Prayer" partial [pdf "Prayer"])
    (add_worksheet_info "Forgiveness"
       (sheet "Forgiveness" done [pdf "Forgiveness"])
       (add_worksheet_info "Anger" (sheet "Anger" done [pdf "Anger"])
          (LanguageInfo_init "de"))).

(** X has a pdf, Y has none. *)
Definition x_y : @LanguageInfo iso_text :=
  add_worksheet_info "Y" (sheet "Y" partial [odt "Y"])
    (add_worksheet_info "X" (sheet "X" done [pdf "X"])
       (LanguageInfo_init "de")).


(** Calls of [add_file_info] in both modes, and one that breaks the
    precondition. *)
Definition prayer_odt : @FileInfo iso_text :=
  @mkFileInfo iso_text "odt" "https://www.4training.net/Prayer.odt"
              "2022-05-06T07:08:09".

Definition calls : list (@add_file_info_call iso_text) :=
  [mkCall (Some (pdf "Prayer")) None None;
   mkCall None (Some "odt")
          (Some (@mkPywikibotFileInfo iso_text
                   "https://www.4training.net/Prayer.odt"
                   "2022-05-06T07:08:09"));
   mkCall None None None].

(** The mapping a JSON document with a [null] timestamp parses to. *)
Definition null_timestamp : dict (@value iso_text) :=
  [("file_type", VStr "pdf"); ("url", VStr "https://www.4training.net/x.pdf");
   ("timestamp", VNone)].
End Sample.

(** ** What the further properties speak about *)

(** The kind of event the comparison in the other direction reports. *)
Definition opposite (t : ChangeType) : ChangeType :=
  match t with
  | NEW_WORKSHEET => DELETED_WORKSHEET
  | NEW_PDF => DELETED_PDF
  | NEW_ODT => DELETED_ODT
  | DELETED_WORKSHEET => NEW_WORKSHEET
  | DELETED_PDF => NEW_PDF
  | DELETED_ODT => NEW_ODT
  | UPDATED_WORKSHEET => UPDATED_WORKSHEET
  | UPDATED_PDF => UPDATED_PDF
  | UPDATED_ODT => UPDATED_ODT
  end.

Definition opposite_event (e : ChangeItem) : ChangeItem :=
  mkChangeItem (worksheet e) (opposite (change_type e)).

Section Availability.
Context `{L : PyLib}.

Definition is_datetime (v : value) : bool :=
  match v with VDatetime _ => true | _ => false end.

(** Whether a worksheet has a pdf and whether it has an odt. *)
Definition pdf_odt (w : WorksheetInfo) : bool * bool :=
  (has_file_type w "pdf", has_file_type w "odt").

(** The names of a [LanguageInfo], in order, each with the availability of
    its pdf and odt. *)
Definition availability (x : LanguageInfo) : dict (bool * bool) :=
  map (fun item => (fst item, pdf_odt (snd item))) (dict_items (worksheets x)).
End Availability.

(** The events of one name, from what is available now and what was
    available before ([None]: the name was not there). *)
Definition availability_events (name : string) (now : bool * bool)
  (before : option (bool * bool)) : list ChangeItem :=
  match before with
  | None => [mkChangeItem name NEW_WORKSHEET]
  | Some b =>
      file_events name NEW_PDF DELETED_PDF (fst now) (fst b)
      ++ file_events name NEW_ODT DELETED_ODT (snd now) (snd b)
  end.

Definition availability_diff (now before : dict (bool * bool)) : list ChangeItem :=
  flat_map (fun item => availability_events (fst item) (snd item)
                                            (dict_get (fst item) before)) now
  ++ map (fun name => mkChangeItem name DELETED_WORKSHEET)
         (filter (fun name => negb (dict_mem name now)) (dict_keys before)).

(** ** pywikibot/families/4training_family.py

    The family of the 4training wiki: its name, its languages, and three
    methods that index a dictionary literal with the language code.  The
    warning of the [deprecated] decorator on [version] is not modelled. *)
Module Family.
Definition name : string := "4training".

Definition langs : dict string := [("en", "www.4training.net")].

Definition scriptpath (code : string) : outcome string :=
  dict_index code [("en", "/mediawiki")].

Definition version (code : string) : outcome string :=
  dict_index code [("en", "1.35.1")].

Definition protocol (code : string) : outcome string :=
  dict_index code [("en", "https")].
End Family.

Module Sample2.
(** [Sample.now] after its files moved to another host and were written
    again: other urls and timestamps, the same types. *)
Definition moved (name : string) (kind : string) : @FileInfo iso_text :=
  @mkFileInfo iso_text kind ("https://files.4training.net/" ++ name ++ "." ++ kind)
              "2023-01-01T00:00:00".

Definition now_moved : @LanguageInfo iso_text :=
  add_worksheet_info "Healing" (Sample.sheet "Healing" Sample.done [moved "Healing" "pdf"])
    (add_worksheet_info "Prayer" (Sample.sheet "Prayer" Sample.done [])
      (add_worksheet_info "Forgiveness"
         (Sample.sheet "Forgiveness" Sample.done
            [moved "Forgiveness" "pdf"; moved "Forgiveness" "odt"])
         (LanguageInfo_init "de"))).

(** A mapping for a worksheet, with its progress and a file decoded. *)
Definition worksheet_mapping : dict (@value iso_text) :=
  [("page", VStr "Prayer"); ("language_code", VStr "de");
   ("title", VStr "Gebet"); ("progress", VProgress Sample.partial);
   ("files", VList [VFileInfo (Sample.pdf "Prayer")])].

(** A mapping for a language with the same page twice. *)
Definition language_mapping : dict (@value iso_text) :=
  [("language_code", VStr "de");
   ("worksheets",
    VList [VWorksheetInfo (Sample.sheet "Prayer" Sample.partial []);
           VWorksheetInfo (Sample.sheet "Healing" Sample.done [Sample.pdf "Healing"]);
           VWorksheetInfo (Sample.sheet "Prayer" Sample.done [Sample.pdf "Prayer"])])].
End Sample2.

Module Sample3.
(** A file as it comes from the wiki: the timestamps of pywikibot print
    with a Z. *)
Definition wiki_pdf (name : string) : @FileInfo iso_text :=
  @mkFileInfo iso_text "pdf" ("https://www.4training.net/" ++ name ++ ".pdf")
              "2021-03-04T10:20:30Z".

Definition wiki_sheet : @WorksheetInfo iso_text :=
  Sample.sheet "Prayer" Sample.partial [wiki_pdf "Prayer"; Sample.odt "Prayer"].


(** A worksheet with a file, stored under a name that is not its page. *)
Definition renamed_with_file : @LanguageInfo iso_text :=
  add_worksheet_info "A" (Sample.sheet "B" Sample.done [wiki_pdf "B"])
                     (LanguageInfo_init "de").
End Sample3.

(** * Properties *)

(** ** Dictionaries *)

Section DictFacts.
Variable V : Type.
Implicit Types (k : string) (d : dict V).

Lemma dict_mem_get k d :
  dict_mem k d = match dict_get k d with Some _ => true | None => false end.
Proof.
  induction d as [|[k' v'] d IH]; simpl; [reflexivity|].
  destruct (String.eqb k k'); [reflexivity | exact IH].
Qed.

Lemma dict_mem_keys k d : dict_mem k d = true <-> In k (dict_keys d).
Proof.
  induction d as [|[k' v'] d IH]; simpl.
  - split; [discriminate | tauto].
  - destruct (String.eqb_spec k k') as [->|Hne].
    + split; auto.
    + rewrite IH. split; [auto | intros [E|H]; [congruence | exact H]].
Qed.

Lemma dict_mem_false_keys k d : dict_mem k d = false <-> ~ In k (dict_keys d).
Proof.
  rewrite <- dict_mem_keys. destruct (dict_mem k d); split; congruence.
Qed.

Lemma dict_get_In k v d : dict_get k d = Some v -> In (k, v) d.
Proof.
  induction d as [|[k' v'] d IH]; simpl; [discriminate|].
  destruct (String.eqb_spec k k') as [->|Hne].
  - intros [= ->]. now left.
  - intros H. right. auto.
Qed.

Lemma In_dict_get k v d : dict_wf d -> In (k, v) d -> dict_get k d = Some v.
Proof.
  unfold dict_wf. induction d as [|[k' v'] d IH]; simpl; [tauto|].
  intros Hnd [E|Hin].
  - injection E as -> ->. now rewrite String.eqb_refl.
  - inversion Hnd as [|? ? Hnotin Hnd']; subst.
    destruct (String.eqb_spec k k') as [->|Hne].
    + exfalso. apply Hnotin. change k' with (fst (k', v)). now apply in_map.
    + auto.
Qed.

Lemma dict_wf_tail kv d : dict_wf (kv :: d) -> dict_wf d.
Proof. unfold dict_wf. simpl. now inversion 1. Qed.

Lemma dict_set_keys k v d :
  dict_keys (dict_set k v d)
  = if dict_mem k d then dict_keys d else dict_keys d ++ [k].
Proof.
  induction d as [|[k' v'] d IH]; simpl; [reflexivity|].
  destruct (String.eqb_spec k k') as [->|Hne]; simpl; [reflexivity|].
  rewrite IH. now destruct (dict_mem k d).
Qed.

Lemma dict_set_wf k v d : dict_wf d -> dict_wf (dict_set k v d).
Proof.
  unfold dict_wf. intros Hnd. rewrite dict_set_keys.
  destruct (dict_mem k d) eqn:E; [exact Hnd|].
  apply dict_mem_false_keys in E.
  apply NoDup_app; [exact Hnd | repeat constructor; simpl; tauto |].
  intros x Hx [<-|[]]. contradiction.
Qed.

Lemma dict_set_get_same k v d : dict_get k (dict_set k v d) = Some v.
Proof.
  induction d as [|[k' v'] d IH]; simpl.
  - now rewrite String.eqb_refl.
  - destruct (String.eqb_spec k k') as [->|Hne]; simpl.
    + now rewrite String.eqb_refl.
    + apply String.eqb_neq in Hne. now rewrite Hne.
Qed.

Lemma dict_set_get_other k k0 v d :
  k0 <> k -> dict_get k0 (dict_set k v d) = dict_get k0 d.
Proof.
  intros Hne. induction d as [|[k' v'] d IH]; simpl.
  - apply String.eqb_neq in Hne. now rewrite Hne.
  - destruct (String.eqb_spec k k') as [->|Hne']; simpl.
    + apply String.eqb_neq in Hne. now rewrite Hne.
    + now rewrite IH.
Qed.

Lemma dict_set_mem_same k v d : dict_mem k (dict_set k v d) = true.
Proof. now rewrite dict_mem_get, dict_set_get_same. Qed.

Lemma dict_set_length k v d :
  length (dict_set k v d) = if dict_mem k d then length d else S (length d).
Proof.
  induction d as [|[k' v'] d IH]; simpl; [reflexivity|].
  destruct (String.eqb k k'); simpl; [reflexivity|].
  rewrite IH. now destruct (dict_mem k d).
Qed.

(** Setting a key that is absent puts the entry last. *)
Lemma dict_set_fresh k v d : dict_mem k d = false -> dict_set k v d = d ++ [(k, v)].
Proof.
  induction d as [|[k' v'] d IH]; simpl; [reflexivity|].
  destruct (String.eqb k k'); [discriminate|].
  intros H. now rewrite IH.
Qed.

Lemma dict_set_In k v d kv :
  In kv (dict_set k v d) -> kv = (k, v) \/ In kv d.
Proof.
  induction d as [|[k' v'] d IH]; simpl.
  - intros [<-|[]]. now left.
  - destruct (String.eqb k k'); simpl.
    + intros [<-|Hin]; auto.
    + intros [<-|Hin]; auto. destruct (IH Hin); auto.
Qed.
End DictFacts.

(** ** Loops *)

(** A loop whose body only appends to the log appends the events of each
    item in turn. *)
Lemma foldM_appends {A E : Type} (body : list E -> A -> outcome (list E))
  (f : A -> list E) :
  (forall log a, body log a = Ok (log ++ f a)) ->
  forall l log, foldM body l log = Ok (log ++ flat_map f l).
Proof.
  intros Hbody l. induction l as [|a l IH]; intros log; simpl.
  - now rewrite app_nil_r.
  - rewrite Hbody. simpl. rewrite IH. now rewrite <- app_assoc.
Qed.

Lemma flat_map_filter_singleton {A B : Type} (p : A -> bool) (g : A -> B) l :
  flat_map (fun a => if p a then [g a] else []) l = map g (filter p l).
Proof.
  induction l as [|a l IH]; simpl; [reflexivity|].
  destruct (p a); simpl; now rewrite IH.
Qed.

Lemma filter_none {A : Type} (p : A -> bool) l :
  (forall a, In a l -> p a = false) -> filter p l = [].
Proof.
  induction l as [|a l IH]; simpl; intros H; [reflexivity|].
  rewrite (H a (or_introl eq_refl)). apply IH. intros a' Ha. apply H. now right.
Qed.

Lemma flat_map_none {A B : Type} (f : A -> list B) l :
  (forall a, In a l -> f a = []) -> flat_map f l = [].
Proof.
  induction l as [|a l IH]; simpl; intros H; [reflexivity|].
  rewrite (H a (or_introl eq_refl)). apply IH. intros a' Ha. apply H. now right.
Qed.

(** ** compare *)

Section CompareFacts.
Context `{L : PyLib}.
Implicit Types (self old : LanguageInfo) (log : ChangeLog).

Lemma compare_worksheet_appends old log item :
  compare_worksheet old log item = Ok (log ++ worksheet_events old item).
Proof.
  destruct item as [name info].
  unfold compare_worksheet, worksheet_events, old_has_file_type, dict_index.
  simpl fst; simpl snd. rewrite dict_mem_get.
  destruct (dict_get name (worksheets old)) as [before|]; [|reflexivity].
  unfold file_events, add_change. cbn [bind].
  destruct (has_file_type info "pdf"), (has_file_type before "pdf"),
    (has_file_type info "odt"), (has_file_type before "odt"); simpl;
    rewrite ?app_nil_r, <- ?app_assoc; reflexivity.
Qed.

Lemma compare_deleted_appends self log name :
  compare_deleted self log name
  = Ok (log ++ (if negb (has_worksheet self name)
                then [mkChangeItem name DELETED_WORKSHEET] else [])).
Proof.
  unfold compare_deleted, has_worksheet, add_change.
  destruct (dict_mem name (worksheets self)); simpl;
    rewrite ?app_nil_r; reflexivity.
Qed.

(** The log of [compare]: the events of the worksheets of [self], one
    worksheet after the other, then the deletions. *)
Lemma compare_events self old :
  compare self (VLanguageInfo old)
  = Ok (flat_map (worksheet_events old) (dict_items (worksheets self))
        ++ deleted_events self old).
Proof.
  unfold compare, ChangeLog_init.
  rewrite (foldM_appends _ _ (compare_worksheet_appends old)). simpl.
  rewrite (foldM_appends _ _ (compare_deleted_appends self)). simpl.
  unfold deleted_events. now rewrite flat_map_filter_singleton.
Qed.

Lemma file_events_spec name new_t del_t now before e :
  In e (file_events name new_t del_t now before) ->
  worksheet e = name /\ (change_type e = new_t \/ change_type e = del_t).
Proof.
  unfold file_events. destruct now, before; simpl; try tauto.
  - intros [<-|[]]. simpl. auto.
  - intros [<-|[]]. simpl. auto.
Qed.

Lemma worksheet_events_spec old item e :
  In e (worksheet_events old item) ->
  worksheet e = fst item
  /\ In (change_type e) [NEW_WORKSHEET; NEW_PDF; DELETED_PDF; NEW_ODT; DELETED_ODT].
Proof.
  unfold worksheet_events.
  destruct (dict_get (fst item) (worksheets old)).
  - rewrite in_app_iff.
    intros [H|H]; apply file_events_spec in H; simpl; intuition.
  - intros [<-|[]]. simpl. auto.
Qed.

(** Counting an event in the events of a dictionary's items, when the
    events of an item carry its key: only the item under the event's
    worksheet counts. *)
Lemma count_occ_items {V : Type} (f : string * V -> list ChangeItem)
  (d : dict V) (e : ChangeItem) :
  (forall item e', In e' (f item) -> worksheet e' = fst item) ->
  dict_wf d ->
  count_occ ChangeItem_eq_dec (flat_map f d) e
  = match dict_get (worksheet e) d with
    | Some v => count_occ ChangeItem_eq_dec (f (worksheet e, v)) e
    | None => 0
    end.
Proof.
  intros Hname. induction d as [|[k v] d IH]; intros Hwf; [reflexivity|].
  simpl. rewrite count_occ_app. specialize (IH (dict_wf_tail Hwf)).
  destruct (String.eqb_spec (worksheet e) k) as [E|Hne].
  - subst k. replace (count_occ ChangeItem_eq_dec (flat_map f d) e) with 0.
    + lia.
    + symmetry. apply count_occ_not_In. intros Hin.
      apply in_flat_map in Hin. destruct Hin as [[k' v'] [Hin He]].
      apply Hname in He. simpl in He. subst k'.
      inversion Hwf as [|? ? Hnotin _]; subst. apply Hnotin.
      change (worksheet e) with (fst (worksheet e, v')). now apply in_map.
  - rewrite IH.
    replace (count_occ ChangeItem_eq_dec (f (k, v)) e) with 0; [reflexivity|].
    symmetry. apply count_occ_not_In. intros Hin.
    apply Hname in Hin. simpl in Hin. congruence.
Qed.

Lemma deleted_events_items self old :
  deleted_events self old
  = flat_map (fun item : string * WorksheetInfo =>
                if negb (has_worksheet self (fst item))
                then [mkChangeItem (fst item) DELETED_WORKSHEET] else [])
             (worksheets old).
Proof.
  unfold deleted_events, dict_keys.
  induction (worksheets old) as [|[k v] d IH]; simpl; [reflexivity|].
  destruct (negb (has_worksheet self k)); simpl; now rewrite IH.
Qed.

End CompareFacts.

(** Settles a count of events in a list that is given in full. *)
Ltac count_events :=
  cbn [count_occ app andb negb];
  repeat destruct (ChangeItem_eq_dec _ _);
  solve [reflexivity | congruence].

(** C1: for dictionaries without repeated keys, [self.compare(old)] returns
    a log in which every event occurs once if it is one of the expected
    events (a worksheet that is new, a worksheet that is gone, and for a
    worksheet on both sides a pdf or odt that is new or gone) and does not
    occur otherwise. *)
Theorem compare_emits_exactly {L : PyLib} (self old : LanguageInfo) :
  dict_wf (worksheets self) -> dict_wf (worksheets old) ->
  exists log,
    compare self (VLanguageInfo old) = Ok log
    /\ forall e, count_occ ChangeItem_eq_dec log e
                 = if expected_event self old e then 1 else 0.
Proof.
  intros Hself Hold. eexists. split; [apply compare_events|].
  intros e. rewrite count_occ_app, deleted_events_items.
  rewrite (count_occ_items (worksheet_events old));
    [| intros item e' H; now apply worksheet_events_spec in H | exact Hself].
  rewrite (count_occ_items _ (d := worksheets old));
    [| intros item e' H; destruct (negb _); [destruct H as [<-|[]]; reflexivity
                                            | destruct H]
     | exact Hold].
  unfold expected_event, worksheet_events, has_worksheet, worksheet_has_type,
    dict_items.
  destruct e as [name t]. simpl worksheet; simpl change_type; simpl fst; simpl snd.
  rewrite !dict_mem_get.
  destruct (dict_get name (worksheets self)) as [info|],
           (dict_get name (worksheets old)) as [before|]; simpl negb; cbv iota.
  - rewrite count_occ_app. unfold file_events.
    destruct (has_file_type info "pdf"), (has_file_type before "pdf"),
      (has_file_type info "odt"), (has_file_type before "odt"), t;
      count_events.
  - destruct t; count_events.
  - destruct t; count_events.
  - destruct t; reflexivity.
Qed.

Lemma compare_emits_exactly_witness :
  dict_wf (worksheets Sample.now) /\ dict_wf (worksheets Sample.before)
  /\ exists log,
       compare Sample.now (VLanguageInfo Sample.before) = Ok log
       /\ forall e, count_occ ChangeItem_eq_dec log e
                    = if expected_event Sample.now Sample.before e then 1 else 0.
Proof.
  assert (H1 : dict_wf (worksheets Sample.now))
    by (unfold dict_wf; simpl; repeat constructor; simpl; intuition discriminate).
  assert (H2 : dict_wf (worksheets Sample.before))
    by (unfold dict_wf; simpl; repeat constructor; simpl; intuition discriminate).
  split; [exact H1 | split; [exact H2 |]].
  exact (compare_emits_exactly Sample.now Sample.before H1 H2).
Defined.

(** The log for the sample data: Forgiveness gained its odt, Prayer lost
    its pdf, Healing is new and Anger is gone. *)
Example compare_sample :
  compare Sample.now (VLanguageInfo Sample.before)
  = Ok [mkChangeItem "Forgiveness" NEW_ODT;
        mkChangeItem "Prayer" DELETED_PDF;
        mkChangeItem "Healing" NEW_WORKSHEET;
        mkChangeItem "Anger" DELETED_WORKSHEET].
Proof. reflexivity. Qed.

(** C4: [self.compare(older)] returns the empty log, and does not raise,
    when [older] is not a [LanguageInfo]. *)
Theorem compare_not_LanguageInfo {L : PyLib} (self : LanguageInfo) (older : value) :
  is_LanguageInfo older = false -> compare self older = Ok [].
Proof.
  intros H. destruct older; try reflexivity. discriminate H.
Qed.

Lemma compare_not_LanguageInfo_witness :
  is_LanguageInfo (@VStr iso_text "de") = false
  /\ compare Sample.now (VStr "de") = Ok [].
Proof.
  split; [reflexivity|].
  apply (compare_not_LanguageInfo Sample.now (VStr "de")). reflexivity.
Defined.

(** C6: the log of [compare] is made of two parts.  The first holds, for
    the worksheets of [self] in their order, the events of each worksheet,
    which bear its name and are of the kinds NEW_WORKSHEET, NEW_PDF,
    DELETED_PDF, NEW_ODT, DELETED_ODT; the second holds one
    DELETED_WORKSHEET event for each worksheet of [old] that [self] lacks,
    in the order of [old.worksheets]. *)
Theorem compare_order {L : PyLib} (self old : LanguageInfo) :
  exists changes deletions,
    compare self (VLanguageInfo old) = Ok (changes ++ deletions)
    /\ changes = flat_map (worksheet_events old) (dict_items (worksheets self))
    /\ (forall item e,
          In e (worksheet_events old item) ->
          worksheet e = fst item
          /\ In (change_type e)
                [NEW_WORKSHEET; NEW_PDF; DELETED_PDF; NEW_ODT; DELETED_ODT])
    /\ deletions
       = map (fun name => mkChangeItem name DELETED_WORKSHEET)
             (filter (fun name => negb (has_worksheet self name))
                     (dict_keys (worksheets old))).
Proof.
  do 2 eexists. split; [apply compare_events|].
  split; [reflexivity|]. split; [|reflexivity].
  intros item e. apply worksheet_events_spec.
Qed.

(** C9: comparing a [LanguageInfo] with itself gives the empty log. *)
Theorem compare_self {L : PyLib} (x : LanguageInfo) :
  dict_wf (worksheets x) -> compare x (VLanguageInfo x) = Ok [].
Proof.
  intros Hwf. rewrite compare_events.
  assert (Hdel : deleted_events x x = []).
  { unfold deleted_events.
    rewrite filter_none; [reflexivity|]. intros name Hin.
    apply dict_mem_keys in Hin. unfold has_worksheet. now rewrite Hin. }
  rewrite Hdel, app_nil_r. f_equal. apply flat_map_none.
  intros [name info] Hin. unfold worksheet_events. simpl.
  rewrite (In_dict_get _ _ Hwf Hin). unfold file_events.
  destruct (has_file_type info "pdf"), (has_file_type info "odt"); reflexivity.
Qed.

Lemma compare_self_witness :
  dict_wf (worksheets Sample.now)
  /\ compare Sample.now (VLanguageInfo Sample.now) = Ok [].
Proof.
  assert (H : dict_wf (worksheets Sample.now))
    by (unfold dict_wf; simpl; repeat constructor; simpl; intuition discriminate).
  split; [exact H | exact (compare_self Sample.now H)].
Defined.

(** ** list_worksheets_with_missing_pdf *)

(** The comprehension over a part [d'] of the dictionary [d]: every key of
    [d'] leads back to its own worksheet. *)
Lemma missing_pdf_loop {L : PyLib} (d d' : dict WorksheetInfo) (acc : list string) :
  (forall k w, In (k, w) d' -> dict_get k d = Some w) ->
  foldM (fun acc worksheet =>
           w <- dict_index worksheet d ;;
           if negb (has_file_type w "pdf") then Ok (acc ++ [worksheet])
           else Ok acc)
        (dict_keys d') acc
  = Ok (acc ++ map fst (filter (fun item => negb (has_file_type (snd item) "pdf")) d')).
Proof.
  revert acc. induction d' as [|[k w] d' IH]; intros acc Hget; simpl.
  - now rewrite app_nil_r.
  - unfold dict_index at 1. rewrite (Hget k w (or_introl eq_refl)). simpl.
    destruct (negb (has_file_type w "pdf")); simpl.
    + rewrite IH; [now rewrite <- app_assoc|]. intros; apply Hget; now right.
    + apply IH. intros; apply Hget; now right.
Qed.

(** For the worksheets X, with a pdf, and Y, without one, the list is Y
    alone. *)
Lemma missing_pdf_X_Y {L : PyLib} (lc : string) (x y : WorksheetInfo) :
  has_file_type x "pdf" = true ->
  has_file_type y "pdf" = false ->
  list_worksheets_with_missing_pdf (mkLanguageInfo lc [("X", x); ("Y", y)])
  = Ok ["Y"].
Proof.
  intros Hx Hy. unfold list_worksheets_with_missing_pdf. simpl.
  unfold dict_index. simpl. rewrite Hx. simpl. now rewrite Hy.
Qed.

(** C8: [list_worksheets_with_missing_pdf] returns the names under which a
    worksheet without a "pdf" entry is stored, in the order of the
    dictionary. *)
Theorem list_worksheets_with_missing_pdf_spec {L : PyLib} (self : LanguageInfo) :
  dict_wf (worksheets self) ->
  list_worksheets_with_missing_pdf self
  = Ok (map fst (filter (fun item => negb (has_file_type (snd item) "pdf"))
                        (dict_items (worksheets self)))).
Proof.
  intros Hwf. unfold list_worksheets_with_missing_pdf.
  rewrite (missing_pdf_loop (worksheets self) (worksheets self)).
  - reflexivity.
  - intros k w Hin. now apply In_dict_get.
Qed.

Lemma list_worksheets_with_missing_pdf_witness :
  dict_wf (worksheets Sample.x_y)
  /\ list_worksheets_with_missing_pdf Sample.x_y = Ok ["Y"].
Proof.
  assert (H : dict_wf (worksheets Sample.x_y))
    by (unfold dict_wf; simpl; repeat constructor; simpl; intuition discriminate).
  split; [exact H|].
  rewrite (list_worksheets_with_missing_pdf_spec Sample.x_y H).
  reflexivity.
Defined.

(** ** WorksheetInfo *)

Section WorksheetFacts.
Context `{L : PyLib}.

Lemma store_files_by_type (w : WorksheetInfo) (f : FileInfo) :
  files_by_type w ->
  files_by_type (set_files w (dict_set (file_type f) f (_files w))).
Proof.
  intros Hw k f'. simpl.
  destruct (string_dec k (file_type f)) as [->|Hne].
  - rewrite dict_set_get_same. now intros [= <-].
  - rewrite dict_set_get_other by exact Hne. apply Hw.
Qed.

Lemma store_wf (w : WorksheetInfo) (f : FileInfo) :
  WorksheetInfo_wf w ->
  WorksheetInfo_wf (set_files w (dict_set (file_type f) f (_files w))).
Proof.
  intros [Hnd Hkeyed]. split; simpl.
  - now apply dict_set_wf.
  - intros k f' Hin. apply dict_set_In in Hin.
    destruct Hin as [[= -> ->]|Hin]; [reflexivity | now apply Hkeyed].
Qed.

(** What a call of [add_file_info] does to the worksheet: nothing, or it
    stores one file under the file's own type. *)
Lemma run_call_cases (w : WorksheetInfo) (c : add_file_info_call) :
  run_call w c = w
  \/ exists f, run_call w c = set_files w (dict_set (file_type f) f (_files w)).
Proof.
  unfold run_call, after, add_file_info.
  destruct c as [[fi|] [ft|] [pwb|]]; simpl; eauto.
  right. now exists (mkFileInfo ft (unquote (pwb_url pwb)) (pwb_timestamp pwb)).
Qed.

Lemma run_calls_invariant (P : WorksheetInfo -> Prop) :
  (forall w f, P w -> P (set_files w (dict_set (file_type f) f (_files w)))) ->
  forall calls w, P w -> P (run_calls calls w).
Proof.
  intros Hstep calls. unfold run_calls.
  induction calls as [|c calls IH]; intros w Hw; simpl; [exact Hw|].
  apply IH. destruct (run_call_cases w c) as [->|[f ->]]; auto.
Qed.

(** Every worksheet made by the constructor and calls of [add_file_info]
    has a dictionary of files without repeated keys, each file under its
    own type. *)
Lemma WorksheetInfo_reachable_wf page' lc title' p calls :
  WorksheetInfo_wf (run_calls calls (WorksheetInfo_init page' lc title' p)).
Proof.
  apply run_calls_invariant; [apply store_wf|].
  split; simpl; [constructor | intros k f []].
Qed.

(** The dictionary of a [LanguageInfo] made by the constructor and
    [add_worksheet_info] has no repeated key. *)
Lemma LanguageInfo_init_wf lc : dict_wf (worksheets (LanguageInfo_init lc)).
Proof. constructor. Qed.

Lemma add_worksheet_info_wf name w x :
  dict_wf (worksheets x) -> dict_wf (worksheets (add_worksheet_info name w x)).
Proof. intros H. simpl. now apply dict_set_wf. Qed.
End WorksheetFacts.

(** C7: two calls of [add_file_info] with files of one type leave one
    entry of that type, holding the second file, and as many entries as
    after the first call. *)
Theorem add_file_info_overwrites {L : PyLib} (w : WorksheetInfo) (f1 f2 : FileInfo) :
  dict_wf (_files w) ->
  file_type f1 = file_type f2 ->
  exists w1 w2,
    add_file_info (Some f1) None None w = Ok w1
    /\ add_file_info (Some f2) None None w1 = Ok w2
    /\ length (get_file_infos w2) = length (get_file_infos w1)
    /\ count_occ string_dec (dict_keys (get_file_infos w2)) (file_type f2) = 1
    /\ get_file_type_info w2 (file_type f2) = Some f2.
Proof.
  intros Hwf Ht. do 2 eexists. split; [reflexivity|]. split; [reflexivity|].
  unfold get_file_infos, get_file_type_info. simpl. rewrite Ht.
  split; [|split].
  - now rewrite dict_set_length, dict_set_mem_same.
  - apply NoDup_count_occ'.
    + now apply dict_set_wf, dict_set_wf.
    + apply dict_mem_keys, dict_set_mem_same.
  - now rewrite dict_set_mem_same, dict_set_get_same.
Qed.

Lemma add_file_info_overwrites_witness :
  dict_wf (_files (Sample.sheet "Prayer" Sample.partial [Sample.odt "Prayer"]))
  /\ file_type (Sample.pdf "Prayer") = file_type (Sample.pdf "Prayer_v2")
  /\ exists w1 w2,
       add_file_info (Some (Sample.pdf "Prayer")) None None
                     (Sample.sheet "Prayer" Sample.partial [Sample.odt "Prayer"])
       = Ok w1
       /\ add_file_info (Some (Sample.pdf "Prayer_v2")) None None w1 = Ok w2
       /\ length (get_file_infos w2) = length (get_file_infos w1)
       /\ count_occ string_dec (dict_keys (get_file_infos w2))
                    (file_type (Sample.pdf "Prayer_v2")) = 1
       /\ get_file_type_info w2 (file_type (Sample.pdf "Prayer_v2"))
          = Some (Sample.pdf "Prayer_v2").
Proof.
  assert (Hwf : dict_wf (_files (Sample.sheet "Prayer" Sample.partial
                                              [Sample.odt "Prayer"])))
    by (unfold dict_wf; simpl; repeat constructor; simpl; intuition).
  split; [exact Hwf | split; [reflexivity |]].
  exact (add_file_info_overwrites
           (Sample.sheet "Prayer" Sample.partial [Sample.odt "Prayer"])
           (Sample.pdf "Prayer") (Sample.pdf "Prayer_v2") Hwf eq_refl).
Defined.

(** C10: after the constructor and any calls of [add_file_info], in either
    mode, a file that [get_file_type_info] returns for a key has that key
    as its type. *)
Theorem get_file_type_info_type {L : PyLib} (page' lc title' : string)
  (p : TranslationProgress) (calls : list add_file_info_call)
  (k : string) (f : FileInfo) :
  get_file_type_info (run_calls calls (WorksheetInfo_init page' lc title' p)) k
  = Some f ->
  file_type f = k.
Proof.
  unfold get_file_type_info. rewrite dict_mem_get. intros H.
  assert (Hinv : files_by_type (run_calls calls (WorksheetInfo_init page' lc title' p))).
  { apply run_calls_invariant; [apply store_files_by_type|].
    intros k' f'. simpl. discriminate. }
  apply Hinv.
  destruct (dict_get k _); [exact H | discriminate H].
Qed.

Lemma get_file_type_info_type_witness :
  get_file_type_info (run_calls Sample.calls
                        (WorksheetInfo_init "Prayer" "de" "Gebet" Sample.partial))
                     "odt"
  = Some Sample.prayer_odt
  /\ file_type Sample.prayer_odt = "odt".
Proof.
  assert (H : get_file_type_info
                (run_calls Sample.calls
                   (WorksheetInfo_init "Prayer" "de" "Gebet" Sample.partial))
                "odt"
              = Some Sample.prayer_odt) by reflexivity.
  split; [exact H|].
  exact (get_file_type_info_type "Prayer" "de" "Gebet" Sample.partial
           Sample.calls "odt" H).
Defined.

(** ** json_decode *)

Section DecodeFacts.
Context `{L : PyLib}.

Lemma dict_mem_true_get {V : Type} k (d : dict V) :
  dict_mem k d = true -> exists v, dict_get k d = Some v.
Proof.
  rewrite dict_mem_get. destruct (dict_get k d) as [v|]; [eauto | discriminate].
Qed.

Lemma dict_index_get {V : Type} k (d : dict V) v :
  dict_get k d = Some v -> dict_index k d = Ok v.
Proof. unfold dict_index. now intros ->. Qed.

Lemma dict_get_mem {V : Type} k (d : dict V) v :
  dict_get k d = Some v -> dict_mem k d = true.
Proof. rewrite dict_mem_get. now intros ->. Qed.

Lemma all_FileInfo entries :
  forallb is_FileInfo entries = true -> exists fs, entries = map VFileInfo fs.
Proof.
  induction entries as [|v entries IH]; simpl.
  - now exists [].
  - destruct v; simpl; try discriminate. intros H.
    destruct (IH H) as [fs ->]. now exists (f :: fs).
Qed.

Lemma all_WorksheetInfo entries :
  forallb is_WorksheetInfo entries = true ->
  exists ws, entries = map VWorksheetInfo ws.
Proof.
  induction entries as [|v entries IH]; simpl.
  - now exists [].
  - destruct v; simpl; try discriminate. intros H.
    destruct (IH H) as [ws ->]. now exists (w :: ws).
Qed.

Lemma files_loop_ok fs o :
  files_loop (map VFileInfo fs) o = Ok (option_map (add_files fs) o).
Proof.
  unfold files_loop. revert o.
  induction fs as [|f fs IH]; intros o; simpl.
  - now destruct o.
  - destruct o as [w|]; simpl; rewrite IH; reflexivity.
Qed.

Lemma files_loop_bad entries o :
  forallb is_FileInfo entries = false -> files_loop entries o = Raise AssertionError.
Proof.
  unfold files_loop. revert o.
  induction entries as [|v entries IH]; intros o; simpl; [discriminate|].
  destruct v; simpl; try reflexivity.
  intros H. destruct o as [w|]; simpl; now rewrite IH.
Qed.

Lemma worksheets_loop_ok ws o :
  worksheets_loop (map VWorksheetInfo ws) o = Ok (option_map (add_worksheets ws) o).
Proof.
  unfold worksheets_loop. revert o.
  induction ws as [|w ws IH]; intros o; simpl.
  - now destruct o.
  - destruct o as [x|]; simpl; rewrite IH; reflexivity.
Qed.

Lemma worksheets_loop_bad entries o :
  forallb is_WorksheetInfo entries = false ->
  worksheets_loop entries o = Raise AssertionError.
Proof.
  unfold worksheets_loop. revert o.
  induction entries as [|v entries IH]; intros o; simpl; [discriminate|].
  destruct v; simpl; try reflexivity.
  intros H. destruct o as [x|]; simpl; now rewrite IH.
Qed.

Lemma WorksheetInfo_of_values_str page' lc title' p :
  WorksheetInfo_of_values (VStr page') (VStr lc) (VStr title') p
  = Some (WorksheetInfo_init page' lc title' p).
Proof. reflexivity. Qed.

Lemma WorksheetInfo_of_values_ill page' lc title' p :
  is_str page' && is_str lc && is_str title' = false ->
  WorksheetInfo_of_values page' lc title' p = None.
Proof.
  unfold WorksheetInfo_of_values.
  destruct page', lc, title'; simpl; try reflexivity; discriminate.
Qed.

Lemma is_str_cases v : (exists s, v = VStr s) \/ is_str v = false.
Proof. destruct v; simpl; eauto. Qed.

(** The branch of [json_decode] for a mapping with the key [page]. *)
Lemma json_decode_worksheet data :
  dict_mem "file_type" data = false ->
  dict_mem "translated" data = false ->
  dict_mem "page" data = true ->
  worksheet_spec data (json_decode data).
Proof.
  intros Hft Htr Hpage. unfold json_decode. rewrite Hft, Htr, Hpage.
  destruct (dict_mem "language_code" data && dict_mem "title" data
            && dict_mem "progress" data) eqn:Hkeys; simpl;
    [| now apply ws_missing_key].
  apply andb_prop in Hkeys. destruct Hkeys as [Hkeys Hprog].
  apply andb_prop in Hkeys. destruct Hkeys as [Hlc Htitle].
  destruct (dict_mem_true_get _ _ Hpage) as [page' Gpage].
  destruct (dict_mem_true_get _ _ Hlc) as [lc Glc].
  destruct (dict_mem_true_get _ _ Htitle) as [title' Gtitle].
  destruct (dict_mem_true_get _ _ Hprog) as [prog Gprog].
  rewrite (dict_index_get _ _ Gprog). simpl.
  destruct (is_TranslationProgress prog) eqn:Hp;
    [| destruct prog; try discriminate Hp;
       eapply ws_raw_progress; eauto ].
  destruct prog; try discriminate Hp. clear Hp.
  rewrite (dict_index_get _ _ Gpage), (dict_index_get _ _ Glc),
    (dict_index_get _ _ Gtitle). simpl.
  assert (Hdone : forall fs, files_spec data fs ->
            worksheet_spec data
              (return_object VWorksheetInfo
                 (option_map (add_files fs)
                    (WorksheetInfo_of_values page' lc title' p)))).
  { intros fs Hfs.
    destruct (is_str_cases page') as [[s1 ->]|H1];
      [destruct (is_str_cases lc) as [[s2 ->]|H2];
       [destruct (is_str_cases title') as [[s3 ->]|H3]|]|].
    - simpl. now apply ws_built.
    - rewrite WorksheetInfo_of_values_ill by (simpl; exact H3).
      eapply ws_ill_typed; eauto.
    - rewrite WorksheetInfo_of_values_ill by (simpl; now rewrite H2).
      eapply ws_ill_typed; eauto. simpl. now rewrite H2.
    - rewrite WorksheetInfo_of_values_ill by (now rewrite H1).
      eapply ws_ill_typed; eauto. now rewrite H1. }
  destruct (dict_mem "files" data) eqn:Hfiles.
  - destruct (dict_mem_true_get _ _ Hfiles) as [files Gfiles].
    rewrite (dict_index_get _ _ Gfiles). simpl.
    destruct (py_iter files) as [entries|e|] eqn:Hiter; simpl.
    + destruct (forallb is_FileInfo entries) eqn:Hall.
      * destruct (all_FileInfo _ Hall) as [fs ->].
        rewrite files_loop_ok. simpl. apply Hdone. right. eauto.
      * rewrite files_loop_bad by exact Hall. simpl.
        eapply ws_entry_not_FileInfo; eauto.
    + eapply ws_files_not_iterable; eauto.
    + destruct files; discriminate Hiter.
  - simpl. specialize (Hdone [] (or_introl (conj Hfiles eq_refl))).
    now destruct (WorksheetInfo_of_values page' lc title' p).
Qed.

(** The branch of [json_decode] for a mapping with the key [worksheets]. *)
Lemma json_decode_language data :
  dict_mem "file_type" data = false ->
  dict_mem "translated" data = false ->
  dict_mem "page" data = false ->
  dict_mem "worksheets" data = true ->
  language_spec data (json_decode data).
Proof.
  intros Hft Htr Hpage Hws. unfold json_decode. rewrite Hft, Htr, Hpage, Hws.
  destruct (dict_mem "language_code" data) eqn:Hlc; simpl;
    [| now apply li_missing_key].
  destruct (dict_mem_true_get _ _ Hlc) as [lc Glc].
  destruct (dict_mem_true_get _ _ Hws) as [ws Gws].
  rewrite (dict_index_get _ _ Glc), (dict_index_get _ _ Gws). simpl.
  destruct (py_iter ws) as [entries|e|] eqn:Hiter; simpl.
  - destruct (forallb is_WorksheetInfo entries) eqn:Hall.
    + destruct (all_WorksheetInfo _ Hall) as [wl ->].
      rewrite worksheets_loop_ok. simpl.
      destruct (is_str_cases lc) as [[s ->]|Hs].
      * simpl. now apply li_built with (ws := ws).
      * replace (as_str lc) with (@None string) by (destruct lc; try discriminate Hs; reflexivity).
        simpl. eapply li_ill_typed; eauto.
    + rewrite worksheets_loop_bad by exact Hall. simpl.
      eapply li_entry_not_WorksheetInfo; eauto.
  - eapply li_not_iterable; eauto.
  - destruct ws; discriminate Hiter.
Qed.
End DecodeFacts.

(** The decoding rules leave no choice: they fix the result for every
    mapping. *)
Section DecodeSpecFunctional.
Context `{L : PyLib}.

Lemma map_VFileInfo_inj fs1 fs2 :
  map VFileInfo fs1 = map VFileInfo fs2 -> fs1 = fs2.
Proof.
  revert fs2. induction fs1 as [|f fs1 IH]; intros [|f2 fs2]; simpl;
    try discriminate; [reflexivity|].
  intros [= -> H]. now rewrite (IH _ H).
Qed.

Lemma map_VWorksheetInfo_inj ws1 ws2 :
  map VWorksheetInfo ws1 = map VWorksheetInfo ws2 -> ws1 = ws2.
Proof.
  revert ws2. induction ws1 as [|w ws1 IH]; intros [|w2 ws2]; simpl;
    try discriminate; [reflexivity|].
  intros [= -> H]. now rewrite (IH _ H).
Qed.

Lemma forallb_map_VFileInfo fs : forallb is_FileInfo (map VFileInfo fs) = true.
Proof. induction fs; simpl; auto. Qed.

Lemma forallb_map_VWorksheetInfo ws :
  forallb is_WorksheetInfo (map VWorksheetInfo ws) = true.
Proof. induction ws; simpl; auto. Qed.

Lemma files_spec_functional data fs1 fs2 :
  files_spec data fs1 -> files_spec data fs2 -> fs1 = fs2.
Proof.
  intros [[H1 ->]|[v1 [G1 I1]]] [[H2 ->]|[v2 [G2 I2]]].
  - reflexivity.
  - apply dict_get_mem in G2. congruence.
  - apply dict_get_mem in G1. congruence.
  - rewrite G1 in G2. injection G2 as <-. rewrite I1 in I2.
    injection I2 as H. now apply map_VFileInfo_inj.
Qed.

(** Brings the premises of two rules over one mapping together. *)
Ltac same_lookups :=
  repeat match goal with
    | H1 : dict_get ?k ?d = Some ?a, H2 : dict_get ?k ?d = Some ?b |- _ =>
        rewrite H1 in H2; injection H2 as H2;
        try (subst a || subst b || (try subst))
    | H1 : py_iter ?v = _, H2 : py_iter ?v = _ |- _ =>
        rewrite H1 in H2; try discriminate H2; injection H2 as H2;
        first [subst | idtac]
    end.

Ltac key_present :=
  repeat match goal with
    | H : dict_get ?k ?d = Some _ |- _ =>
        lazymatch goal with
        | _ : dict_mem k d = true |- _ => fail
        | _ => pose proof (dict_get_mem _ _ H)
        end
    end;
  repeat match goal with
    | H : dict_mem ?k ?d = true, H' : context [dict_mem ?k ?d] |- _ =>
        lazymatch type of H' with
        | dict_mem k d = true => fail
        | _ => rewrite H in H'
        end
    end.

Lemma worksheet_spec_functional data r1 r2 :
  worksheet_spec data r1 -> worksheet_spec data r2 -> r1 = r2.
Proof.
  intros H1 H2.
  destruct H1; destruct H2; try reflexivity;
    key_present; same_lookups; simpl in *; try discriminate; try congruence;
    try match goal with
      | Ha : files_spec ?d ?fs1, Hb : files_spec ?d ?fs2 |- _ =>
          rewrite (files_spec_functional Ha Hb); reflexivity
      end;
    try match goal with
      | H : forallb is_FileInfo (map VFileInfo _) = false |- _ =>
          rewrite forallb_map_VFileInfo in H; discriminate H
      | H : files_spec _ _ |- _ =>
          destruct H as [[? ?]|[? [? ?]]]; key_present; same_lookups;
          try discriminate; try congruence
      end;
    try match goal with
      | H : forallb is_FileInfo (map VFileInfo _) = false |- _ =>
          rewrite forallb_map_VFileInfo in H; discriminate H
      end.
Qed.

Lemma language_spec_functional data r1 r2 :
  language_spec data r1 -> language_spec data r2 -> r1 = r2.
Proof.
  intros H1 H2.
  destruct H1; destruct H2; try reflexivity;
    key_present; same_lookups; simpl in *; try discriminate; try congruence;
    try match goal with
      | H : forallb is_WorksheetInfo (map VWorksheetInfo _) = false |- _ =>
          rewrite forallb_map_VWorksheetInfo in H; discriminate H
      | H : map VWorksheetInfo _ = map VWorksheetInfo _ |- _ =>
          apply map_VWorksheetInfo_inj in H; subst; reflexivity
      end.
Qed.

Theorem decode_spec_functional data r1 r2 :
  decode_spec data r1 -> decode_spec data r2 -> r1 = r2.
Proof.
  intros H1 H2.
  destruct H1; destruct H2; try reflexivity;
    key_present; same_lookups; simpl in *; try discriminate; try congruence;
    eauto using worksheet_spec_functional, language_spec_functional.
Qed.
End DecodeSpecFunctional.

(** X27: [json_decode] does what the cases of [decode_spec] say.  The first
    of the keys file_type, translated, page, worksheets that the mapping
    has decides what is built: with file_type, a FileInfo, and an
    AssertionError without url or timestamp; with translated, what the
    progress constructor returns; with page, a WorksheetInfo, an
    AssertionError without language_code, title or progress, with a
    progress that is not a decoded record, or with an entry of files that
    is not a decoded FileInfo, and a TypeError for files that cannot be
    iterated; with worksheets, a LanguageInfo under the like checks; with
    none of them the mapping itself. *)
Theorem json_decode_follows_spec {L : PyLib} (data : dict value) :
  decode_spec data (json_decode data).
Proof.
  destruct (dict_mem "file_type" data) eqn:Hft.
  - destruct (dict_mem "url" data && dict_mem "timestamp" data) eqn:Hkeys.
    + apply andb_prop in Hkeys. destruct Hkeys as [Hurl Hts].
      destruct (dict_mem_true_get _ _ Hft) as [ft Gft].
      destruct (dict_mem_true_get _ _ Hurl) as [u Gu].
      destruct (dict_mem_true_get _ _ Hts) as [ts Gts].
      unfold json_decode. rewrite Hft, Hurl, Hts. simpl.
      rewrite (dict_index_get _ _ Gft), (dict_index_get _ _ Gu),
        (dict_index_get _ _ Gts). simpl.
      now apply spec_FileInfo.
    + unfold json_decode. rewrite Hft, Hkeys. simpl.
      now apply spec_FileInfo_incomplete.
  - destruct (dict_mem "translated" data) eqn:Htr.
    + unfold json_decode. rewrite Hft, Htr. now apply spec_progress.
    + destruct (dict_mem "page" data) eqn:Hpage.
      * apply spec_WorksheetInfo; auto. now apply json_decode_worksheet.
      * destruct (dict_mem "worksheets" data) eqn:Hws.
        -- apply spec_LanguageInfo; auto. now apply json_decode_language.
        -- unfold json_decode. rewrite Hft, Htr, Hpage, Hws.
           now apply spec_unchanged.
Qed.

(** C5, where the code departs from it: a mapping with the key page whose
    value under files cannot be iterated (the null of a JSON document),
    and a mapping with the key worksheets whose value cannot be iterated (a
    number), make [json_decode] raise TypeError: no check of the code
    looks at the value itself, and what comes out is neither the
    AssertionError of a failed check nor an object. *)
Theorem json_decode_not_iterable {L : PyLib} (page' lc title' : string)
  (p : TranslationProgress) :
  json_decode [("page", VStr page'); ("language_code", VStr lc);
               ("title", VStr title'); ("progress", VProgress p);
               ("files", VNone)]
  = Raise TypeError
  /\ json_decode [("language_code", VStr lc); ("worksheets", VInt 5)]
     = Raise TypeError.
Proof. split; reflexivity. Qed.

(** ** FileInfo *)

Section FileInfoFacts.
Context `{L : PyLib}.

(** A [datetime] is stored as it is. *)
Lemma FileInfo_init_datetime ft u t :
  FileInfo_init (VStr ft) (VStr u) (VDatetime t) = Ok (mkFileInfo ft u t).
Proof. reflexivity. Qed.

(** A string is parsed after its Z's became +00:00, and the fallback
    stands in where it does not parse: no exception comes out. *)
Lemma FileInfo_init_str ft u s :
  FileInfo_init (VStr ft) (VStr u) (VStr s)
  = Ok (mkFileInfo ft u
          match fromisoformat (str_replace "Z"%char "+00:00" s) with
          | Some t => t
          | None => epoch
          end).
Proof.
  unfold FileInfo_init, FileInfo_timestamp.
  now destruct (fromisoformat _).
Qed.

Lemma str_replace_app c by_ s1 s2 :
  str_replace c by_ (s1 ++ s2)%string
  = (str_replace c by_ s1 ++ str_replace c by_ s2)%string.
Proof.
  induction s1 as [|a s1 IH]; simpl; [reflexivity|].
  destruct (Ascii.eqb a c); simpl; rewrite IH; [|reflexivity].
  generalize (str_replace c by_ s1), (str_replace c by_ s2). clear.
  intros x y. induction by_ as [|b by_ IH]; simpl; [reflexivity | now rewrite IH].
Qed.

(** A trailing Z reads as the offset +00:00. *)
Lemma str_replace_trailing_Z s :
  str_replace "Z"%char "+00:00" (s ++ "Z")%string
  = (str_replace "Z"%char "+00:00" s ++ "+00:00")%string.
Proof. now rewrite str_replace_app. Qed.

(** Anything but a [datetime] or a string has no [replace]. *)
Lemma FileInfo_timestamp_no_replace v :
  match v with VDatetime _ | VStr _ => False | _ => True end ->
  FileInfo_timestamp v = Raise AttributeError.
Proof. destruct v; simpl; tauto. Qed.
End FileInfoFacts.

(** The fallback and the Z of the description, on the sample library. *)
Example FileInfo_not_a_date :
  FileInfo_init (L := iso_text) (VStr "pdf") (VStr "x.pdf") (VStr "not-a-date")
  = Ok (mkFileInfo (L := iso_text) "pdf" "x.pdf" "1970-01-01T00:00:00").
Proof. reflexivity. Qed.

Example FileInfo_trailing_Z :
  FileInfo_init (L := iso_text) (VStr "pdf") (VStr "x.pdf")
                (VStr "2020-01-02T03:04:05Z")
  = Ok (mkFileInfo (L := iso_text) "pdf" "x.pdf" "2020-01-02T03:04:05+00:00").
Proof. reflexivity. Qed.

(** C3, where the code departs from it: a timestamp that is neither a
    [datetime] nor a string, as the [null] of a JSON document, makes the
    constructor raise AttributeError, and [json_decode] with it. *)
Theorem FileInfo_init_null_timestamp {L : PyLib} :
  FileInfo_init (VStr "pdf") (VStr "https://www.4training.net/x.pdf") VNone
  = Raise AttributeError
  /\ json_decode [("file_type", VStr "pdf");
                  ("url", VStr "https://www.4training.net/x.pdf");
                  ("timestamp", VNone)]
     = Raise AttributeError.
Proof. split; reflexivity. Qed.

Example json_decode_null_timestamp :
  json_decode Sample.null_timestamp = Raise AttributeError.
Proof. reflexivity. Qed.

(** ** The codec *)

Section CodecFacts.
Context `{L : PyLib}.

Lemma json_loads_array items :
  json_loads (JArray items) = vs <- mapM json_loads items ;; Ok (VList vs).
Proof.
  simpl. f_equal. induction items as [|x items IH]; simpl; [reflexivity|].
  now rewrite IH.
Qed.

Lemma json_loads_object members :
  json_loads (JObject members)
  = pairs <- mapM (fun m => v <- json_loads (snd m) ;; Ok (fst m, v)) members ;;
    json_decode (dict_of_pairs pairs).
Proof.
  simpl. f_equal. induction members as [|[k x] members IH]; simpl; [reflexivity|].
  rewrite IH. now destruct (json_loads x).
Qed.

Lemma encode_list l :
  encode (VList l) = js <- mapM encode l ;; Ok (JArray js).
Proof.
  simpl. f_equal. induction l as [|x l IH]; simpl; [reflexivity|].
  now rewrite IH.
Qed.

Lemma encode_dict d :
  encode (VDict d)
  = ms <- mapM (fun m => j <- encode (snd m) ;; Ok (fst m, j)) d ;;
    Ok (JObject ms).
Proof.
  simpl. f_equal. induction d as [|[k x] d IH]; simpl; [reflexivity|].
  rewrite IH. now destruct (encode x).
Qed.

Lemma mapM_map_ok {A B C : Type} (f : B -> outcome C) (g : A -> B) (h : A -> C) l :
  (forall a, In a l -> f (g a) = Ok (h a)) ->
  mapM f (map g l) = Ok (map h l).
Proof.
  induction l as [|a l IH]; simpl; intros H; [reflexivity|].
  rewrite (H a (or_introl eq_refl)). simpl.
  rewrite IH; [reflexivity|]. intros a' Ha. apply H. now right.
Qed.

(** The encoder replaces an object by the encoding of what [default]
    returns for it. *)
Lemma encode_default v d :
  default v = Ok d -> encode v = encode (VDict d).
Proof.
  destruct v; simpl default; try discriminate.
  - intros [= <-]. reflexivity.
  - intros [= <-]. reflexivity.
  - change (encode (VWorksheetInfo w)) with (Ok (json_of_WorksheetInfo w)).
    unfold json_of_WorksheetInfo.
    destruct (dict_truthy (get_file_infos w)) eqn:E; intros [= <-].
    + rewrite encode_dict.
      change (dict_set "files" ?v ?d) with (d ++ [("files", v)]).
      cbn [app mapM bind fst snd]. rewrite encode_list.
      rewrite (mapM_map_ok encode VFileInfo json_of_FileInfo) by reflexivity.
      reflexivity.
    + reflexivity.
  - intros [= <-].
    change (encode (VLanguageInfo l)) with (Ok (json_of_LanguageInfo l)).
    rewrite encode_dict. cbn [mapM bind fst snd]. rewrite encode_list.
    rewrite (mapM_map_ok encode VWorksheetInfo json_of_WorksheetInfo) by reflexivity.
    reflexivity.
Qed.

(** What is not serializable falls to the base class, which raises. *)
Lemma encode_datetime t : encode (VDatetime t) = Raise TypeError.
Proof. reflexivity. Qed.
End CodecFacts.

(** ** The round trip *)

Section RoundTrip.
Context `{L : PyLib}.

(** Storing the values of a dictionary one by one, each under the key it
    names itself, rebuilds the dictionary in its order. *)
Lemma dict_rebuild {V : Type} (key : V -> string) (d acc : dict V) :
  dict_wf (acc ++ d) ->
  (forall k v, In (k, v) d -> key v = k) ->
  fold_left (fun a v => dict_set (key v) v a) (dict_values d) acc = acc ++ d.
Proof.
  revert acc. induction d as [|[k v] d IH]; intros acc Hwf Hkey; simpl.
  - now rewrite app_nil_r.
  - rewrite (Hkey k v (or_introl eq_refl)).
    assert (Hfresh : dict_mem k acc = false).
    { apply dict_mem_false_keys. unfold dict_wf, dict_keys in Hwf.
      rewrite map_app in Hwf. simpl in Hwf.
      apply NoDup_remove_2 in Hwf. intros Hin. apply Hwf.
      apply in_or_app. now left. }
    rewrite (dict_set_fresh _ _ _ Hfresh).
    rewrite IH.
    + now rewrite <- app_assoc.
    + now rewrite <- app_assoc.
    + intros k' v' Hin. apply Hkey. now right.
Qed.

Lemma add_files_files fs w :
  add_files fs w
  = set_files w (fold_left (fun a f => dict_set (file_type f) f a) fs (_files w)).
Proof.
  unfold add_files. revert w.
  induction fs as [|f fs IH]; intros w; simpl.
  - now destruct w.
  - now rewrite IH.
Qed.

Lemma add_worksheets_worksheets ws x :
  add_worksheets ws x
  = mkLanguageInfo (language_code x)
      (fold_left (fun a w => dict_set (page w) w a) ws (worksheets x)).
Proof.
  unfold add_worksheets. revert x.
  induction ws as [|w ws IH]; intros x; simpl.
  - now destruct x.
  - now rewrite IH.
Qed.

Lemma map_fixed {A : Type} (f : A -> A) (l : list A) :
  map f l = l <-> forall a, In a l -> f a = a.
Proof.
  induction l as [|a l IH]; simpl.
  - split; [intros _ a [] | reflexivity].
  - split.
    + intros [= Ha Hl] b [<-|Hb]; [exact Ha | now apply IH].
    + intros H. rewrite (H a (or_introl eq_refl)). f_equal.
      apply IH. intros b Hb. apply H. now right.
Qed.

(** When an object comes back as it was. *)
Lemma decoded_WorksheetInfo_fixed w :
  decoded_WorksheetInfo w = w <-> file_timestamps_kept w.
Proof.
  unfold decoded_WorksheetInfo, file_timestamps_kept.
  destruct w as [pg lc ti pr fs]. simpl. split.
  - intros [= H] t f Hin. apply map_fixed with (a := (t, f)) in H; [|exact Hin].
    simpl in H. injection H as H. apply (f_equal timestamp) in H. exact H.
  - intros H. f_equal. apply map_fixed. intros [t f] Hin. simpl. f_equal.
    unfold decoded_FileInfo. rewrite (H t f Hin). now destruct f.
Qed.


(** Storing the decoded values of a dictionary whose values name their
    keys rebuilds the dictionary, with the decoded values in place. *)
Lemma dict_rebuild_decoded {V : Type} (key : V -> string) (dec : V -> V)
  (d : dict V) :
  dict_wf d ->
  (forall k v, In (k, v) d -> key v = k) ->
  (forall v, key (dec v) = key v) ->
  fold_left (fun a v => dict_set (key v) v a) (map dec (dict_values d)) []
  = map (fun item => (fst item, dec (snd item))) d.
Proof.
  intros Hwf Hkey Hdec.
  replace (map dec (dict_values d))
    with (dict_values (map (fun item => (fst item, dec (snd item))) d))
    by (unfold dict_values; now rewrite !map_map).
  apply (dict_rebuild key _ []).
  - unfold dict_wf, dict_keys in *. simpl. now rewrite map_map.
  - intros k v Hin. apply in_map_iff in Hin.
    destruct Hin as [[k' v'] [[= <- <-] Hin]]. rewrite Hdec. now apply Hkey.
Qed.

Lemma loads_FileInfo f :
  json_loads (json_of_FileInfo f) = Ok (VFileInfo (decoded_FileInfo f)).
Proof.
  unfold json_of_FileInfo. rewrite json_loads_object.
  cbn [mapM bind fst snd json_loads].
  change (json_decode (dict_of_pairs ?d)) with
    (x <- FileInfo_init (VStr (file_type f)) (VStr (url f))
                        (VStr (isoformat (timestamp f))) ;;
     Ok (VFileInfo x)).
  now rewrite FileInfo_init_str.
Qed.

Lemma loads_progress p : json_loads (json_of_progress p) = Ok (VProgress p).
Proof. now destruct p. Qed.

Lemma loads_WorksheetInfo w :
  WorksheetInfo_wf w ->
  json_loads (json_of_WorksheetInfo w) = Ok (VWorksheetInfo (decoded_WorksheetInfo w)).
Proof.
  intros [Hwf Hkeyed].
  unfold json_of_WorksheetInfo. rewrite json_loads_object.
  cbn [app mapM bind fst snd]. rewrite loads_progress.
  cbn [json_loads bind]. unfold get_file_infos.
  destruct (dict_truthy (_files w)) eqn:E.
  - cbn [mapM bind fst snd]. rewrite json_loads_array.
    rewrite (mapM_map_ok json_loads json_of_FileInfo
               (fun f => VFileInfo (decoded_FileInfo f)))
      by (intros f _; apply loads_FileInfo).
    rewrite <- (map_map decoded_FileInfo VFileInfo).
    cbn [bind].
    change (json_decode (dict_of_pairs ?d)) with
      (o <- files_loop (map VFileInfo (map decoded_FileInfo (dict_values (_files w))))
              (Some (WorksheetInfo_init (page w) (ws_language_code w)
                                        (title w) (progress w))) ;;
       return_object VWorksheetInfo o).
    rewrite files_loop_ok. cbn [bind option_map return_object].
    rewrite add_files_files. cbn [_files WorksheetInfo_init].
    rewrite (dict_rebuild_decoded file_type decoded_FileInfo Hwf); auto.
  - destruct w as [pg lc ti pr fs]. simpl in E. destruct fs; [|discriminate].
    reflexivity.
Qed.

(** The tree of a [LanguageInfo] decodes to its decoded worksheets, each
    stored under its page. *)
Lemma loads_LanguageInfo_rekeyed x :
  (forall k w, In (k, w) (worksheets x) -> WorksheetInfo_wf w) ->
  json_loads (json_of_LanguageInfo x)
  = Ok (VLanguageInfo
          (add_worksheets (map decoded_WorksheetInfo (dict_values (worksheets x)))
                          (LanguageInfo_init (language_code x)))).
Proof.
  intros Hws.
  unfold json_of_LanguageInfo. rewrite json_loads_object.
  cbn [mapM bind fst snd]. rewrite json_loads_array.
  rewrite (mapM_map_ok json_loads json_of_WorksheetInfo
             (fun w => VWorksheetInfo (decoded_WorksheetInfo w))).
  - rewrite <- (map_map decoded_WorksheetInfo VWorksheetInfo).
    cbn [json_loads bind].
    change (json_decode (dict_of_pairs ?d)) with
      (o <- worksheets_loop
              (map VWorksheetInfo
                   (map decoded_WorksheetInfo (dict_values (worksheets x))))
              (Some (LanguageInfo_init (language_code x))) ;;
       return_object VLanguageInfo o).
    now rewrite worksheets_loop_ok.
  - intros w Hin. unfold dict_values in Hin. apply in_map_iff in Hin.
    destruct Hin as [[k w'] [<- Hin]]. simpl.
    apply loads_WorksheetInfo. eapply Hws; eauto.
Qed.

End RoundTrip.


(** Splits a membership in a dictionary that is given in full into its
    entries. *)
Ltac each_entry H :=
  simpl in H;
  repeat (destruct H as [H|H]; [injection H as <- <- |]);
  [.. | contradiction].



(** What the decoder makes of the encoding of the pdf of
    [Sample3.wiki_sheet]: the Z of its timestamp came back as +00:00. *)
Example loads_wiki_pdf :
  json_loads (json_of_FileInfo (Sample3.wiki_pdf "Prayer"))
  = Ok (VFileInfo
          (mkFileInfo (L := iso_text) "pdf" "https://www.4training.net/Prayer.pdf"
                      "2021-03-04T10:20:30+00:00")).
Proof. reflexivity. Qed.


(** * Further properties of the code *)

(** ** FileInfo.__init__ *)

(** X1: for a timestamp that is a [datetime], a value of a parsed JSON
    document (null, a boolean, an integer, a string, a list, an object) or
    an object [json_decode] has built, the constructor raises exactly when
    the timestamp is neither a string nor a [datetime], and then it is
    AttributeError that comes out. *)
Theorem FileInfo_init_raises_iff {L : PyLib} (ft u ts : value) :
  ((exists e, FileInfo_init ft u ts = Raise e)
   <-> is_str ts = false /\ is_datetime ts = false)
  /\ forall e, FileInfo_init ft u ts = Raise e -> e = AttributeError.
Proof.
  unfold FileInfo_init, FileInfo_timestamp.
  destruct ts; simpl;
    try (split; [split; [intros _; auto | intros _; eauto]
                | intros e [= <-]; reflexivity]).
  - destruct (fromisoformat _); simpl; destruct (as_str ft), (as_str u);
      (split; [split; [intros [e H]; discriminate H | intros [H _]; discriminate H]
              | intros e H; discriminate H]).
  - destruct (as_str ft), (as_str u);
      (split; [split; [intros [e H]; discriminate H | intros [_ H]; discriminate H]
              | intros e H; discriminate H]).
Qed.

Lemma str_replace_absent (c : ascii) (by_ s : string) :
  ~ In c (list_ascii_of_string s) -> str_replace c by_ s = s.
Proof.
  induction s as [|a s IH]; simpl; intros H; [reflexivity|].
  destruct (Ascii.eqb_spec a c) as [->|Hne].
  - exfalso. apply H. now left.
  - rewrite IH; [reflexivity|]. intros Hin. apply H. now right.
Qed.

Lemma str_replace_Z_free (s : string) :
  ~ In "Z"%char (list_ascii_of_string (str_replace "Z"%char "+00:00" s)).
Proof.
  induction s as [|a s IH]; simpl; [tauto|].
  destruct (Ascii.eqb_spec a "Z"%char) as [->|Hne]; simpl.
  - intros [H|[H|[H|[H|[H|[H|H]]]]]]; try discriminate H. now apply IH.
  - intros [H|H]; [congruence | now apply IH].
Qed.

(** X2: every Z of a timestamp string is rewritten, wherever it stands: the
    text that is parsed holds no Z, and a string whose Z's are rewritten
    already gives the same [FileInfo]. *)
Theorem FileInfo_init_rewrites_every_Z {L : PyLib} (ft u : value) (s : string) :
  ~ In "Z"%char (list_ascii_of_string (str_replace "Z"%char "+00:00" s))
  /\ FileInfo_init ft u (VStr (str_replace "Z"%char "+00:00" s))
     = FileInfo_init ft u (VStr s).
Proof.
  split; [apply str_replace_Z_free|].
  unfold FileInfo_init, FileInfo_timestamp.
  now rewrite (@str_replace_absent "Z"%char "+00:00" _ (str_replace_Z_free s)).
Qed.

(** X3: decoding the encoding of a [FileInfo] never fails and keeps the type
    and the url; the timestamp is what the parser makes of its ISO text,
    and the fallback where that text does not parse. *)
Theorem decode_encoded_FileInfo {L : PyLib} (f : FileInfo) :
  exists tree,
    encode (VFileInfo f) = Ok tree
    /\ json_loads tree
       = Ok (VFileInfo
               (mkFileInfo (file_type f) (url f)
                  match fromisoformat
                          (str_replace "Z"%char "+00:00" (isoformat (timestamp f)))
                  with
                  | Some t => t
                  | None => epoch
                  end)).
Proof.
  exists (json_of_FileInfo f). split; [reflexivity|].
  unfold json_of_FileInfo. rewrite json_loads_object.
  cbn [mapM bind fst snd json_loads].
  change (json_decode (dict_of_pairs ?d)) with
    (x <- FileInfo_init (VStr (file_type f)) (VStr (url f))
                        (VStr (isoformat (timestamp f))) ;;
     Ok (VFileInfo x)).
  now rewrite FileInfo_init_str.
Qed.

(** ** WorksheetInfo.add_file_info and the lookups *)

Lemma get_file_type_info_get {L : PyLib} (w : WorksheetInfo) (t : string) :
  get_file_type_info w t = dict_get t (_files w).
Proof.
  unfold get_file_type_info. rewrite dict_mem_get.
  now destruct (dict_get t (_files w)).
Qed.

Lemma dict_set_mem_other {V : Type} (k k0 : string) (v : V) (d : dict V) :
  k0 <> k -> dict_mem k0 (dict_set k v d) = dict_mem k0 d.
Proof.
  intros Hne. now rewrite !dict_mem_get, dict_set_get_other.
Qed.

(** X4: a call with a [file_info] stores it whatever the other two arguments
    are: the file is found under its type afterwards, and the lookups of
    every other type answer as before. *)
Theorem add_file_info_lookup {L : PyLib} (w : WorksheetInfo) (f : FileInfo)
  (ft : option string) (pwb : option pywikibot_FileInfo) :
  exists w',
    add_file_info (Some f) ft pwb w = Ok w'
    /\ get_file_type_info w' (file_type f) = Some f
    /\ has_file_type w' (file_type f) = true
    /\ forall t, t <> file_type f ->
                 get_file_type_info w' t = get_file_type_info w t
                 /\ has_file_type w' t = has_file_type w t.
Proof.
  eexists. split; [reflexivity|].
  rewrite get_file_type_info_get. unfold has_file_type. simpl.
  rewrite dict_set_get_same, dict_set_mem_same.
  split; [reflexivity | split; [reflexivity|]].
  intros t Hne. rewrite !get_file_type_info_get. simpl.
  now rewrite dict_set_get_other, dict_set_mem_other.
Qed.

(** X5: a call with a type and a file of pywikibot never raises: it stores,
    under that type, a [FileInfo] of that type with the url unquoted and
    the timestamp of pywikibot, and leaves the other types alone. *)
Theorem add_file_info_from_pywikibot {L : PyLib} (w : WorksheetInfo)
  (ft : string) (pwb : pywikibot_FileInfo) :
  exists w',
    add_file_info None (Some ft) (Some pwb) w = Ok w'
    /\ get_file_type_info w' ft
       = Some (mkFileInfo ft (unquote (pwb_url pwb)) (pwb_timestamp pwb))
    /\ forall t, t <> ft -> get_file_type_info w' t = get_file_type_info w t.
Proof.
  eexists. split; [reflexivity|].
  rewrite get_file_type_info_get. simpl. rewrite dict_set_get_same.
  split; [reflexivity|].
  intros t Hne. rewrite !get_file_type_info_get. simpl.
  now rewrite dict_set_get_other.
Qed.

(** X6: [add_file_info] raises exactly when there is no [file_info] and the
    type or the file of pywikibot is missing too; it is the assertion that
    fails then. *)
Theorem add_file_info_raises_iff {L : PyLib} (fi : option FileInfo)
  (ft : option string) (pwb : option pywikibot_FileInfo) (w : WorksheetInfo) :
  ((exists e, add_file_info fi ft pwb w = Raise e)
   <-> fi = None /\ (ft = None \/ pwb = None))
  /\ (forall e, add_file_info fi ft pwb w = Raise e -> e = AssertionError)
  /\ add_file_info fi ft pwb w <> IllTyped.
Proof.
  unfold add_file_info.
  destruct fi as [f|], ft as [t|], pwb as [p|]; simpl;
    (split; [split; [intros [e H]; try discriminate H; auto
                    | intros [H1 [H2|H2]]; try discriminate; eauto]
            | split; [intros e H; try discriminate H; congruence
                     | discriminate ] ]).
Qed.

(** X7: no call of [add_file_info] touches the page, the language code, the
    title or the progress of the worksheet. *)
Theorem run_calls_final_fields {L : PyLib} (calls : list add_file_info_call)
  (w : WorksheetInfo) :
  page (run_calls calls w) = page w
  /\ ws_language_code (run_calls calls w) = ws_language_code w
  /\ title (run_calls calls w) = title w
  /\ progress (run_calls calls w) = progress w.
Proof.
  apply (run_calls_invariant
           (fun w' => page w' = page w
                      /\ ws_language_code w' = ws_language_code w
                      /\ title w' = title w
                      /\ progress w' = progress w)).
  - intros w' f H. exact H.
  - repeat split.
Qed.

(** X8: the order of the files: a file of a type that is there keeps the place
    of the one it replaces, a file of a new type comes last. *)
Theorem add_file_info_order {L : PyLib} (w : WorksheetInfo) (f : FileInfo) :
  exists w',
    add_file_info (Some f) None None w = Ok w'
    /\ dict_keys (get_file_infos w')
       = (if has_file_type w (file_type f)
          then dict_keys (get_file_infos w)
          else dict_keys (get_file_infos w) ++ [file_type f])
    /\ length (get_file_infos w')
       = (if has_file_type w (file_type f)
          then length (get_file_infos w)
          else S (length (get_file_infos w))).
Proof.
  eexists. split; [reflexivity|].
  unfold get_file_infos, has_file_type. simpl.
  now rewrite dict_set_keys, dict_set_length.
Qed.

(** X9: [add_file_info] never takes a file type away: a type the worksheet has
    is still there after any calls. *)
Theorem run_calls_never_removes {L : PyLib} (calls : list add_file_info_call)
  (w : WorksheetInfo) (t : string) :
  has_file_type w t = true -> has_file_type (run_calls calls w) t = true.
Proof.
  intros H.
  apply (run_calls_invariant (fun w' => has_file_type w' t = true)); [|exact H].
  intros w' f Hw'. unfold has_file_type in *. simpl.
  destruct (string_dec t (file_type f)) as [->|Hne].
  - apply dict_set_mem_same.
  - now rewrite dict_set_mem_other.
Qed.

Lemma run_calls_never_removes_witness :
  has_file_type (Sample.sheet "Prayer" Sample.partial [Sample.pdf "Prayer"]) "pdf"
  = true
  /\ has_file_type
       (run_calls Sample.calls
          (Sample.sheet "Prayer" Sample.partial [Sample.pdf "Prayer"])) "pdf"
     = true.
Proof.
  split; [reflexivity|].
  apply (@run_calls_never_removes iso_text Sample.calls
           (Sample.sheet "Prayer" Sample.partial [Sample.pdf "Prayer"]) "pdf").
  reflexivity.
Defined.

(** ** LanguageInfo: the lookups and the counts *)

Lemma get_worksheet_get {L : PyLib} (x : LanguageInfo) (name : string) :
  get_worksheet x name = dict_get name (worksheets x).
Proof.
  unfold get_worksheet. rewrite dict_mem_get.
  now destruct (dict_get name (worksheets x)).
Qed.

(** X10: after [add_worksheet_info(name, info)] the worksheet is found under
    that name; every other name answers as before, and the language code
    stays. *)
Theorem add_worksheet_info_lookup {L : PyLib} (x : LanguageInfo) (name : string)
  (info : WorksheetInfo) :
  get_worksheet (add_worksheet_info name info x) name = Some info
  /\ has_worksheet (add_worksheet_info name info x) name = true
  /\ language_code (add_worksheet_info name info x) = language_code x
  /\ forall other, other <> name ->
       get_worksheet (add_worksheet_info name info x) other = get_worksheet x other
       /\ has_worksheet (add_worksheet_info name info x) other = has_worksheet x other.
Proof.
  rewrite get_worksheet_get. unfold has_worksheet. simpl.
  rewrite dict_set_get_same, dict_set_mem_same.
  repeat split.
  - rewrite !get_worksheet_get. simpl. now rewrite dict_set_get_other.
  - now rewrite dict_set_mem_other.
Qed.

(** X11: [worksheet_has_type] combines the two lookups: it is true exactly when
    the worksheet is there and has a file of the type; for a name that is
    not there it is false. *)
Theorem worksheet_has_type_combines {L : PyLib} (x : LanguageInfo)
  (name t : string) :
  (worksheet_has_type x name t = true
   <-> exists w, get_worksheet x name = Some w /\ has_file_type w t = true)
  /\ (has_worksheet x name = false -> worksheet_has_type x name t = false).
Proof.
  unfold worksheet_has_type, has_worksheet. rewrite get_worksheet_get, dict_mem_get.
  destruct (dict_get name (worksheets x)) as [w|]; split.
  - split; [intros H; eauto | intros [w' [[= <-] H]]; exact H].
  - discriminate.
  - split; [discriminate | intros [w' [H _]]; discriminate H].
  - reflexivity.
Qed.

Lemma count_finished_fold {L : PyLib} (l : list WorksheetInfo) (acc : Z) :
  fold_left (fun count worksheet_info =>
               if has_file_type worksheet_info "pdf" then (count + 1)%Z else count)
            l acc
  = (acc + Z.of_nat (length (filter (fun w => has_file_type w "pdf") l)))%Z.
Proof.
  revert acc. induction l as [|w l IH]; intros acc; simpl; [lia|].
  rewrite IH. destruct (has_file_type w "pdf"); simpl length; lia.
Qed.

(** X12: [count_finished_translations] is the number of worksheets with a pdf,
    whatever else they have; it lies between zero and the number of
    worksheets. *)
Theorem count_finished_translations_counts_pdf {L : PyLib} (x : LanguageInfo) :
  count_finished_translations x
  = Z.of_nat (length (filter (fun w => has_file_type w "pdf")
                             (dict_values (worksheets x))))
  /\ (0 <= count_finished_translations x <= Z.of_nat (length (worksheets x)))%Z.
Proof.
  unfold count_finished_translations. rewrite count_finished_fold.
  split; [lia|].
  pose proof (filter_length_le (fun w => has_file_type w "pdf")
                               (dict_values (worksheets x))) as Hle.
  unfold dict_values in Hle at 2. rewrite length_map in Hle. lia.
Qed.

Lemma pdf_split {L : PyLib} (d : dict WorksheetInfo) :
  length (filter (fun w => has_file_type w "pdf") (dict_values d))
  + length (map fst (filter (fun item => negb (has_file_type (snd item) "pdf")) d))
  = length d.
Proof.
  induction d as [|[k w] d IH]; simpl; [reflexivity|].
  destruct (has_file_type w "pdf"); simpl; lia.
Qed.

(** X13: every worksheet is either finished or listed as missing its pdf: the
    count of the finished ones and the length of the list add up to the
    number of worksheets. *)
Theorem count_finished_plus_missing {L : PyLib} (x : LanguageInfo) :
  dict_wf (worksheets x) ->
  exists missing,
    list_worksheets_with_missing_pdf x = Ok missing
    /\ (count_finished_translations x + Z.of_nat (length missing)
        = Z.of_nat (length (worksheets x)))%Z.
Proof.
  intros Hwf. eexists. split.
  - unfold list_worksheets_with_missing_pdf.
    apply (missing_pdf_loop (worksheets x) (worksheets x)).
    intros k w Hin. now apply In_dict_get.
  - unfold count_finished_translations. rewrite count_finished_fold.
    simpl app. pose proof (pdf_split (worksheets x)). lia.
Qed.

Lemma count_finished_plus_missing_witness :
  dict_wf (worksheets Sample.now)
  /\ exists missing,
       list_worksheets_with_missing_pdf Sample.now = Ok missing
       /\ (count_finished_translations Sample.now + Z.of_nat (length missing)
           = Z.of_nat (length (worksheets Sample.now)))%Z.
Proof.
  assert (H : dict_wf (worksheets Sample.now))
    by (unfold dict_wf; simpl; repeat constructor; simpl; intuition discriminate).
  split; [exact H|].
  exact (@count_finished_plus_missing iso_text Sample.now H).
Defined.

(** ** LanguageInfo.compare, further *)

Section CompareMore.
Context `{L : PyLib}.
Implicit Types (self old : LanguageInfo).

(** How often an event stands in the log of two well-formed sides. *)
Lemma events_count self old (e : ChangeItem) :
  dict_wf (worksheets self) -> dict_wf (worksheets old) ->
  count_occ ChangeItem_eq_dec
    (flat_map (worksheet_events old) (dict_items (worksheets self))
     ++ deleted_events self old) e
  = if expected_event self old e then 1 else 0.
Proof.
  intros Hself Hold. rewrite count_occ_app, deleted_events_items.
  rewrite (count_occ_items (worksheet_events old));
    [| intros item e' H; now apply worksheet_events_spec in H | exact Hself].
  rewrite (count_occ_items _ (d := worksheets old));
    [| intros item e' H; destruct (negb _); [destruct H as [<-|[]]; reflexivity
                                            | destruct H]
     | exact Hold].
  unfold expected_event, worksheet_events, has_worksheet, worksheet_has_type,
    dict_items.
  destruct e as [name t]. simpl worksheet; simpl change_type; simpl fst; simpl snd.
  rewrite !dict_mem_get.
  destruct (dict_get name (worksheets self)) as [info|],
           (dict_get name (worksheets old)) as [before|]; simpl negb; cbv iota.
  - rewrite count_occ_app. unfold file_events.
    destruct (has_file_type info "pdf"), (has_file_type before "pdf"),
      (has_file_type info "odt"), (has_file_type before "odt"), t;
      count_events.
  - destruct t; count_events.
  - destruct t; count_events.
  - destruct t; reflexivity.
Qed.

Lemma worksheet_has_type_absent self name t :
  has_worksheet self name = false -> worksheet_has_type self name t = false.
Proof. unfold has_worksheet, worksheet_has_type. now intros ->. Qed.

Lemma worksheet_events_length old item : length (worksheet_events old item) <= 2.
Proof.
  unfold worksheet_events, file_events.
  destruct (dict_get (fst item) (worksheets old)) as [before|]; simpl; [|lia].
  rewrite length_app.
  destruct (has_file_type (snd item) "pdf"), (has_file_type before "pdf"),
    (has_file_type (snd item) "odt"), (has_file_type before "odt"); simpl; lia.
Qed.

Lemma flat_map_length_le {A B : Type} (f : A -> list B) (n : nat) (l : list A) :
  (forall a, length (f a) <= n) -> length (flat_map f l) <= n * length l.
Proof.
  intros H. induction l as [|a l IH]; simpl; [lia|].
  rewrite length_app. specialize (H a). lia.
Qed.

Lemma opposite_event_involutive (e : ChangeItem) :
  opposite_event (opposite_event e) = e.
Proof. destruct e as [name t]. now destruct t. Qed.

Lemma expected_event_opposite self old (e : ChangeItem) :
  expected_event self old (opposite_event e) = expected_event old self e.
Proof.
  destruct e as [name t]. unfold expected_event, opposite_event.
  simpl worksheet; simpl change_type.
  destruct t; simpl opposite; cbv iota;
    destruct (has_worksheet self name), (has_worksheet old name),
      (worksheet_has_type self name "pdf"), (worksheet_has_type old name "pdf"),
      (worksheet_has_type self name "odt"), (worksheet_has_type old name "odt");
    reflexivity.
Qed.

(** What [availability] keeps of a dictionary of worksheets. *)
Lemma availability_get x name :
  dict_get name (availability x) = option_map pdf_odt (dict_get name (worksheets x)).
Proof.
  unfold availability, dict_items.
  induction (worksheets x) as [|[k w] d IH]; simpl; [reflexivity|].
  destruct (String.eqb name k); [reflexivity | exact IH].
Qed.

Lemma availability_mem x name :
  dict_mem name (availability x) = dict_mem name (worksheets x).
Proof.
  rewrite !dict_mem_get, availability_get.
  now destruct (dict_get name (worksheets x)).
Qed.

Lemma availability_keys x : dict_keys (availability x) = dict_keys (worksheets x).
Proof.
  unfold availability, dict_items, dict_keys. rewrite map_map. reflexivity.
Qed.

(** The log of [compare] is made from the availabilities of the two sides
    alone. *)
Lemma compare_by_availability self old :
  compare self (VLanguageInfo old)
  = Ok (availability_diff (availability self) (availability old)).
Proof.
  rewrite compare_events. unfold availability_diff, deleted_events. do 2 f_equal.
  - assert (H : forall d : dict WorksheetInfo,
               flat_map (worksheet_events old) d
               = flat_map (fun item => availability_events
                                         (fst item) (snd item)
                                         (dict_get (fst item) (availability old)))
                          (map (fun item => (fst item, pdf_odt (snd item))) d)).
    { induction d as [|[k w] d IH]; simpl; [reflexivity|].
      rewrite IH. f_equal.
      unfold worksheet_events, availability_events. simpl fst; simpl snd.
      rewrite availability_get.
      now destruct (dict_get k (worksheets old)). }
    apply H.
  - rewrite availability_keys. f_equal. apply filter_ext.
    intros name. unfold has_worksheet. now rewrite availability_mem.
Qed.
End CompareMore.

(** X14: [compare] never raises, whatever it is given: it returns a log, with at
    most two events for a worksheet of [self] and one for a worksheet of
    the older side. *)
Theorem compare_never_raises {L : PyLib} (self : LanguageInfo) (old : value) :
  exists log,
    compare self old = Ok log
    /\ length log
       <= 2 * length (worksheets self)
          + match old with
            | VLanguageInfo o => length (worksheets o)
            | _ => 0
            end.
Proof.
  destruct old; try (exists []; split; [reflexivity | simpl; lia]).
  eexists. split; [apply compare_events|].
  rewrite length_app.
  pose proof (@flat_map_length_le _ _ (worksheet_events l) 2
                (dict_items (worksheets self)) (worksheet_events_length l)) as H1.
  unfold dict_items in *.
  assert (H2 : length (deleted_events self l) <= length (worksheets l)).
  { unfold deleted_events. rewrite length_map.
    etransitivity; [apply filter_length_le|].
    unfold dict_keys. now rewrite length_map. }
  lia.
Qed.

(** X15: the log is empty exactly when nothing [compare] looks at differs: the
    two sides have the same worksheet names, and each name has a pdf on
    both sides or on neither, and likewise an odt. *)
Theorem compare_empty_iff {L : PyLib} (self old : LanguageInfo) :
  dict_wf (worksheets self) -> dict_wf (worksheets old) ->
  (compare self (VLanguageInfo old) = Ok []
   <-> forall name,
         has_worksheet self name = has_worksheet old name
         /\ worksheet_has_type self name "pdf" = worksheet_has_type old name "pdf"
         /\ worksheet_has_type self name "odt" = worksheet_has_type old name "odt").
Proof.
  intros Hself Hold. rewrite compare_events.
  pose proof (fun e => @events_count L self old e Hself Hold) as Hcount.
  set (log := flat_map _ _ ++ _) in *.
  split.
  - intros [= Hnil]. rewrite Hnil in Hcount. clear Hnil log.
    assert (Hexp : forall e, expected_event self old e = false).
    { intros e. specialize (Hcount e). simpl in Hcount.
      destruct (expected_event self old e); [discriminate | reflexivity]. }
    intros name.
    pose proof (Hexp (mkChangeItem name NEW_WORKSHEET)) as H1.
    pose proof (Hexp (mkChangeItem name DELETED_WORKSHEET)) as H2.
    pose proof (Hexp (mkChangeItem name NEW_PDF)) as H3.
    pose proof (Hexp (mkChangeItem name DELETED_PDF)) as H4.
    pose proof (Hexp (mkChangeItem name NEW_ODT)) as H5.
    pose proof (Hexp (mkChangeItem name DELETED_ODT)) as H6.
    pose proof (worksheet_has_type_absent self name "pdf") as A1.
    pose proof (worksheet_has_type_absent old name "pdf") as A2.
    pose proof (worksheet_has_type_absent self name "odt") as A3.
    pose proof (worksheet_has_type_absent old name "odt") as A4.
    unfold expected_event in H1, H2, H3, H4, H5, H6.
    simpl worksheet in *; simpl change_type in *; cbv iota in *.
    revert H1 H2 H3 H4 H5 H6 A1 A2 A3 A4.
    destruct (has_worksheet self name), (has_worksheet old name),
      (worksheet_has_type self name "pdf"), (worksheet_has_type old name "pdf"),
      (worksheet_has_type self name "odt"), (worksheet_has_type old name "odt");
      simpl; intros; repeat split; try reflexivity; try discriminate;
      try (now (specialize (A1 eq_refl)));
      try (now (specialize (A2 eq_refl)));
      try (now (specialize (A3 eq_refl)));
      try (now (specialize (A4 eq_refl))).
  - intros Hsame. f_equal. apply (count_occ_inv_nil ChangeItem_eq_dec).
    intros e. rewrite Hcount.
    replace (expected_event self old e) with false; [reflexivity|].
    destruct e as [name t]. destruct (Hsame name) as (H1 & H2 & H3).
    unfold expected_event. simpl worksheet; simpl change_type.
    rewrite H1, H2, H3.
    destruct t, (has_worksheet old name), (worksheet_has_type old name "pdf"),
      (worksheet_has_type old name "odt"); reflexivity.
Qed.

Lemma compare_empty_iff_witness :
  dict_wf (worksheets Sample.now) /\ dict_wf (worksheets Sample2.now_moved)
  /\ (compare Sample.now (VLanguageInfo Sample2.now_moved) = Ok []
      <-> forall name,
            has_worksheet Sample.now name = has_worksheet Sample2.now_moved name
            /\ worksheet_has_type Sample.now name "pdf"
               = worksheet_has_type Sample2.now_moved name "pdf"
            /\ worksheet_has_type Sample.now name "odt"
               = worksheet_has_type Sample2.now_moved name "odt").
Proof.
  assert (H1 : dict_wf (worksheets Sample.now))
    by (unfold dict_wf; simpl; repeat constructor; simpl; intuition discriminate).
  assert (H2 : dict_wf (worksheets Sample2.now_moved))
    by (unfold dict_wf; simpl; repeat constructor; simpl; intuition discriminate).
  split; [exact H1 | split; [exact H2 |]].
  exact (@compare_empty_iff iso_text Sample.now Sample2.now_moved H1 H2).
Defined.

(** X16: comparing the other way round gives the same events with NEW and
    DELETED exchanged, up to their order. *)
Theorem compare_swap {L : PyLib} (self old : LanguageInfo) :
  dict_wf (worksheets self) -> dict_wf (worksheets old) ->
  exists forth back,
    compare self (VLanguageInfo old) = Ok forth
    /\ compare old (VLanguageInfo self) = Ok back
    /\ Permutation (map opposite_event forth) back.
Proof.
  intros Hself Hold. do 2 eexists.
  split; [apply compare_events | split; [apply compare_events|]].
  apply (Permutation_count_occ ChangeItem_eq_dec). intros e.
  rewrite (@events_count L old self e Hold Hself).
  rewrite <- (opposite_event_involutive e) at 1.
  rewrite <- (count_occ_map opposite_event ChangeItem_eq_dec ChangeItem_eq_dec).
  - rewrite (@events_count L self old (opposite_event e) Hself Hold).
    now rewrite expected_event_opposite.
  - intros a b H. rewrite <- (opposite_event_involutive a),
      <- (opposite_event_involutive b). now rewrite H.
Qed.

Lemma compare_swap_witness :
  dict_wf (worksheets Sample.now) /\ dict_wf (worksheets Sample.before)
  /\ exists forth back,
       compare Sample.now (VLanguageInfo Sample.before) = Ok forth
       /\ compare Sample.before (VLanguageInfo Sample.now) = Ok back
       /\ Permutation (map opposite_event forth) back.
Proof.
  assert (H1 : dict_wf (worksheets Sample.now))
    by (unfold dict_wf; simpl; repeat constructor; simpl; intuition discriminate).
  assert (H2 : dict_wf (worksheets Sample.before))
    by (unfold dict_wf; simpl; repeat constructor; simpl; intuition discriminate).
  split; [exact H1 | split; [exact H2 |]].
  exact (@compare_swap iso_text Sample.now Sample.before H1 H2).
Defined.

(** X17: against a side without worksheets: every worksheet of [self] is new,
    in the order of [self]; and for a [self] without worksheets every
    worksheet of the older side is deleted, in its order.  No file event
    is reported in either case. *)
Theorem compare_with_empty {L : PyLib} (x : LanguageInfo) (lc : string) :
  compare x (VLanguageInfo (LanguageInfo_init lc))
  = Ok (map (fun name => mkChangeItem name NEW_WORKSHEET)
            (dict_keys (worksheets x)))
  /\ compare (LanguageInfo_init lc) (VLanguageInfo x)
     = Ok (map (fun name => mkChangeItem name DELETED_WORKSHEET)
               (dict_keys (worksheets x))).
Proof.
  rewrite !compare_events. unfold deleted_events, dict_items, dict_keys. simpl.
  split; f_equal.
  - rewrite app_nil_r. induction (worksheets x) as [|[k w] d IH]; simpl;
      [reflexivity | now rewrite IH].
  - f_equal. induction (map fst (worksheets x)) as [|k l IH]; simpl;
      [reflexivity | now rewrite IH].
Qed.

(** X18: [compare] looks at nothing but the names and at which of them have a
    pdf and an odt: sides that agree in this give the same log, whatever
    the urls, timestamps, titles and progress are. *)
Theorem compare_ignores_contents {L : PyLib} (self self' old old' : LanguageInfo) :
  availability self = availability self' ->
  availability old = availability old' ->
  compare self (VLanguageInfo old) = compare self' (VLanguageInfo old').
Proof.
  intros Hs Ho. rewrite !compare_by_availability. now rewrite Hs, Ho.
Qed.

Lemma compare_ignores_contents_witness :
  availability Sample.now = availability Sample2.now_moved
  /\ availability Sample.before = availability Sample.before
  /\ compare Sample.now (VLanguageInfo Sample.before)
     = compare Sample2.now_moved (VLanguageInfo Sample.before).
Proof.
  assert (H1 : availability Sample.now = availability Sample2.now_moved)
    by reflexivity.
  split; [exact H1 | split; [reflexivity |]].
  exact (@compare_ignores_contents iso_text Sample.now Sample2.now_moved
           Sample.before Sample.before H1 eq_refl).
Defined.

(** ** json_decode, further *)

Section DecodeMore.
Context `{L : PyLib}.

(** What [json_decode] can return. *)
Lemma json_decode_Ok_cases data v :
  json_decode data = Ok v ->
  (exists f, v = VFileInfo f)
  \/ (exists p, v = VProgress p)
  \/ worksheet_spec data (Ok v)
  \/ language_spec data (Ok v)
  \/ v = VDict data.
Proof.
  destruct (dict_mem "file_type" data) eqn:Hft.
  - unfold json_decode. rewrite Hft.
    destruct (dict_mem "url" data && dict_mem "timestamp" data); simpl;
      [|discriminate].
    destruct (dict_index "file_type" data) as [ft| |]; simpl; try discriminate.
    destruct (dict_index "url" data) as [u| |]; simpl; try discriminate.
    destruct (dict_index "timestamp" data) as [ts| |]; simpl; try discriminate.
    destruct (FileInfo_init ft u ts) as [f| |]; simpl; try discriminate.
    intros [= <-]. left. eauto.
  - destruct (dict_mem "translated" data) eqn:Htr.
    + unfold json_decode. rewrite Hft, Htr.
      destruct (TranslationProgress_init data) as [p| |]; simpl; try discriminate.
      intros [= <-]. right. left. eauto.
    + destruct (dict_mem "page" data) eqn:Hpage.
      * intros H. pose proof (json_decode_worksheet data Hft Htr Hpage) as Hs.
        rewrite H in Hs. auto.
      * destruct (dict_mem "worksheets" data) eqn:Hws.
        -- intros H.
           pose proof (json_decode_language data Hft Htr Hpage Hws) as Hs.
           rewrite H in Hs. auto.
        -- unfold json_decode. rewrite Hft, Htr, Hpage, Hws.
           intros [= <-]. auto.
Qed.

Lemma py_iter_raises v e : py_iter v = Raise e -> e = TypeError.
Proof. destruct v; simpl; intros H; try discriminate H; now injection H. Qed.

(** Which exceptions [json_decode] can raise. *)
Lemma json_decode_Raise_cases data e :
  json_decode data = Raise e ->
  e = AssertionError \/ e = AttributeError \/ e = TypeError.
Proof.
  destruct (dict_mem "file_type" data) eqn:Hft.
  - destruct (dict_mem "url" data && dict_mem "timestamp" data) eqn:Hkeys.
    + apply andb_prop in Hkeys. destruct Hkeys as [Hurl Hts].
      destruct (dict_mem_true_get _ _ Hft) as [ft Gft].
      destruct (dict_mem_true_get _ _ Hurl) as [u Gu].
      destruct (dict_mem_true_get _ _ Hts) as [ts Gts].
      unfold json_decode. rewrite Hft, Hurl, Hts. simpl.
      rewrite (dict_index_get _ _ Gft), (dict_index_get _ _ Gu),
        (dict_index_get _ _ Gts). simpl.
      unfold FileInfo_init, FileInfo_timestamp.
      destruct ts; simpl; try (intros [= <-]; auto);
        try (destruct (fromisoformat _); simpl);
        destruct (as_str ft), (as_str u); simpl; discriminate.
    + unfold json_decode. rewrite Hft, Hkeys. simpl. intros [= <-]. auto.
  - destruct (dict_mem "translated" data) eqn:Htr.
    + unfold json_decode. rewrite Hft, Htr. unfold TranslationProgress_init.
      destruct (dict_get "translated" data) as [t|],
               (dict_get "fuzzy" data) as [f|],
               (dict_get "total" data) as [n|]; simpl;
        try (intros [= <-]; auto).
      destruct (as_int t), (as_int f), (as_int n); simpl; discriminate.
    + destruct (dict_mem "page" data) eqn:Hpage.
      * intros H. pose proof (json_decode_worksheet data Hft Htr Hpage) as Hs.
        rewrite H in Hs. inversion Hs; subst; auto.
        right. right. eapply py_iter_raises; eauto.
      * destruct (dict_mem "worksheets" data) eqn:Hws.
        -- intros H.
           pose proof (json_decode_language data Hft Htr Hpage Hws) as Hs.
           rewrite H in Hs. inversion Hs; subst; auto.
           right. right. eapply py_iter_raises; eauto.
        -- unfold json_decode. rewrite Hft, Htr, Hpage, Hws. discriminate.
Qed.

Lemma add_files_wf fs w : WorksheetInfo_wf w -> WorksheetInfo_wf (add_files fs w).
Proof.
  unfold add_files. revert w.
  induction fs as [|f fs IH]; intros w Hw; simpl; [exact Hw|].
  apply IH. now apply store_wf.
Qed.

Lemma add_worksheets_keyed ws x :
  dict_wf (worksheets x) -> worksheets_keyed (worksheets x) ->
  dict_wf (worksheets (add_worksheets ws x))
  /\ worksheets_keyed (worksheets (add_worksheets ws x)).
Proof.
  unfold add_worksheets. revert x.
  induction ws as [|w ws IH]; intros x Hwf Hkeyed; simpl; [auto|].
  apply IH; simpl.
  - now apply dict_set_wf.
  - intros k w' Hin. apply dict_set_In in Hin.
    destruct Hin as [[= -> ->]|Hin]; [reflexivity | now apply Hkeyed].
Qed.

Lemma add_worksheets_language_code ws x :
  language_code (add_worksheets ws x) = language_code x.
Proof. now rewrite add_worksheets_worksheets. Qed.
End DecodeMore.

(** X19: a [LanguageInfo] that [json_decode] returns holds every worksheet under
    its own page name, no name twice, and has the language code of the
    mapping. *)
Theorem json_decode_LanguageInfo_keyed {L : PyLib} (data : dict value)
  (x : LanguageInfo) :
  json_decode data = Ok (VLanguageInfo x) ->
  dict_wf (worksheets x)
  /\ worksheets_keyed (worksheets x)
  /\ dict_get "language_code" data = Some (VStr (language_code x)).
Proof.
  intros H. apply json_decode_Ok_cases in H.
  destruct H as [[f H]|[[p H]|[H|[H|H]]]]; try discriminate H.
  - inversion H.
  - inversion H as [| | |lc ws wl Glc Gws Hiter Heq|]; subst.
    destruct (add_worksheets_keyed wl (LanguageInfo_init lc)) as [Hwf Hkeyed].
    + constructor.
    + intros k w [].
    + rewrite add_worksheets_language_code. simpl. auto.
Qed.

Lemma json_decode_LanguageInfo_keyed_witness :
  exists x,
    json_decode Sample2.language_mapping = Ok (VLanguageInfo x)
    /\ dict_wf (worksheets x)
    /\ worksheets_keyed (worksheets x)
    /\ dict_get "language_code" Sample2.language_mapping
       = Some (VStr (language_code x)).
Proof.
  eexists. split; [reflexivity|].
  apply (@json_decode_LanguageInfo_keyed iso_text Sample2.language_mapping).
  reflexivity.
Defined.

(** X20: a [WorksheetInfo] that [json_decode] returns has the page, language
    code, title and progress of the mapping, and holds every file under
    its own type, no type twice. *)
Theorem json_decode_WorksheetInfo_wf {L : PyLib} (data : dict value)
  (w : WorksheetInfo) :
  json_decode data = Ok (VWorksheetInfo w) ->
  WorksheetInfo_wf w
  /\ dict_get "page" data = Some (VStr (page w))
  /\ dict_get "language_code" data = Some (VStr (ws_language_code w))
  /\ dict_get "title" data = Some (VStr (title w))
  /\ dict_get "progress" data = Some (VProgress (progress w)).
Proof.
  intros H. apply json_decode_Ok_cases in H.
  destruct H as [[f H]|[[p H]|[H|[H|H]]]]; try discriminate H.
  - inversion H as [| | | |pg lc ti p fs Gpg Glc Gti Gp Hfs Heq|]; subst.
    split.
    + apply add_files_wf. split; simpl; [constructor | intros k f []].
    + rewrite add_files_files. simpl. auto.
  - inversion H.
Qed.

Lemma json_decode_WorksheetInfo_wf_witness :
  exists w,
    json_decode Sample2.worksheet_mapping = Ok (VWorksheetInfo w)
    /\ WorksheetInfo_wf w
    /\ dict_get "page" Sample2.worksheet_mapping = Some (VStr (page w))
    /\ dict_get "language_code" Sample2.worksheet_mapping
       = Some (VStr (ws_language_code w))
    /\ dict_get "title" Sample2.worksheet_mapping = Some (VStr (title w))
    /\ dict_get "progress" Sample2.worksheet_mapping
       = Some (VProgress (progress w)).
Proof.
  eexists. split; [reflexivity|].
  apply (@json_decode_WorksheetInfo_wf iso_text Sample2.worksheet_mapping).
  reflexivity.
Defined.

(** X21: for a mapping that is not handed to the progress constructor (it has
    the key file_type, or lacks the key translated), [json_decode] never
    raises KeyError: every key it reads it has tested for first.  What it
    raises is an AssertionError, or the AttributeError and TypeError of a
    value of the wrong kind. *)
Theorem json_decode_exceptions {L : PyLib} (data : dict value) (e : exn) :
  dict_mem "file_type" data = true \/ dict_mem "translated" data = false ->
  json_decode data = Raise e ->
  e <> KeyError
  /\ (e = AssertionError \/ e = AttributeError \/ e = TypeError).
Proof.
  intros _ H. apply json_decode_Raise_cases in H.
  split; [|exact H]. destruct H as [->|[->| ->]]; discriminate.
Qed.

Lemma json_decode_exceptions_witness :
  (dict_mem "file_type" Sample.null_timestamp = true
   \/ dict_mem "translated" Sample.null_timestamp = false)
  /\ json_decode Sample.null_timestamp = Raise AttributeError
  /\ AttributeError <> KeyError
  /\ (AttributeError = AssertionError \/ AttributeError = AttributeError
      \/ AttributeError = TypeError).
Proof.
  split; [left; reflexivity|]. split; [reflexivity|].
  apply (@json_decode_exceptions iso_text Sample.null_timestamp AttributeError).
  - left. reflexivity.
  - reflexivity.
Defined.

(** ** The codec, further *)

(** X22: decoding what the encoder writes for a [LanguageInfo] never fails,
    under whatever names its worksheets are stored: the result has the same
    language code and holds the worksheets as they come back (every field
    but the timestamps as it was), in their order, each under its page
    name, a later worksheet of the same page replacing an earlier one. *)
Theorem decode_encoded_rekeys {L : PyLib} (x : LanguageInfo) :
  (forall k w, In (k, w) (worksheets x) -> WorksheetInfo_wf w) ->
  exists tree,
    encode (VLanguageInfo x) = Ok tree
    /\ json_loads tree
       = Ok (VLanguageInfo
               (add_worksheets
                  (map decoded_WorksheetInfo (dict_values (worksheets x)))
                  (LanguageInfo_init (language_code x))))
    /\ worksheets_keyed
         (worksheets
            (add_worksheets
               (map decoded_WorksheetInfo (dict_values (worksheets x)))
               (LanguageInfo_init (language_code x)))).
Proof.
  intros Hws. exists (json_of_LanguageInfo x).
  split; [reflexivity|]. split.
  - now apply loads_LanguageInfo_rekeyed.
  - apply add_worksheets_keyed; [constructor | intros k w []].
Qed.

Lemma decode_encoded_rekeys_witness :
  (forall k w, In (k, w) (worksheets Sample3.renamed_with_file) ->
               WorksheetInfo_wf w)
  /\ exists tree,
       encode (VLanguageInfo Sample3.renamed_with_file) = Ok tree
       /\ json_loads tree
          = Ok (VLanguageInfo
                  (add_worksheets
                     (map decoded_WorksheetInfo
                          (dict_values (worksheets Sample3.renamed_with_file)))
                     (LanguageInfo_init
                        (language_code Sample3.renamed_with_file))))
       /\ worksheets_keyed
            (worksheets
               (add_worksheets
                  (map decoded_WorksheetInfo
                       (dict_values (worksheets Sample3.renamed_with_file)))
                  (LanguageInfo_init
                     (language_code Sample3.renamed_with_file)))).
Proof.
  assert (Hws : forall k w, In (k, w) (worksheets Sample3.renamed_with_file) ->
                            WorksheetInfo_wf w).
  { intros k w H. each_entry H. split.
    - unfold dict_wf; simpl; repeat constructor; simpl; intuition.
    - intros k' f H'. each_entry H'. reflexivity. }
  split; [exact Hws|].
  exact (@decode_encoded_rekeys iso_text Sample3.renamed_with_file Hws).
Defined.

(** X23: the codec carries a [WorksheetInfo] on its own too: decoding its
    encoding never fails and gives the worksheet back with its files in
    their order (none when it has none), every field as it was but for the
    timestamps, each of which is the one the constructor makes of the ISO
    text of the original; the result is the worksheet itself exactly when
    every timestamp comes back from its ISO text. *)
Theorem decode_encoded_WorksheetInfo {L : PyLib} (w : WorksheetInfo) :
  WorksheetInfo_wf w ->
  exists tree,
    encode (VWorksheetInfo w) = Ok tree
    /\ json_loads tree = Ok (VWorksheetInfo (decoded_WorksheetInfo w))
    /\ (decoded_WorksheetInfo w = w <-> file_timestamps_kept w).
Proof.
  intros Hwf. exists (json_of_WorksheetInfo w).
  split; [reflexivity|]. split.
  - now apply loads_WorksheetInfo.
  - apply decoded_WorksheetInfo_fixed.
Qed.

Lemma decode_encoded_WorksheetInfo_witness :
  WorksheetInfo_wf Sample3.wiki_sheet
  /\ exists tree,
       encode (VWorksheetInfo Sample3.wiki_sheet) = Ok tree
       /\ json_loads tree = Ok (VWorksheetInfo (decoded_WorksheetInfo Sample3.wiki_sheet))
       /\ (decoded_WorksheetInfo Sample3.wiki_sheet = Sample3.wiki_sheet
           <-> file_timestamps_kept Sample3.wiki_sheet).
Proof.
  assert (Hwf : WorksheetInfo_wf Sample3.wiki_sheet).
  { split.
    - unfold dict_wf; simpl; repeat constructor; simpl; intuition discriminate.
    - intros k f H. each_entry H; reflexivity. }
  split; [exact Hwf|].
  exact (@decode_encoded_WorksheetInfo iso_text Sample3.wiki_sheet Hwf).
Defined.

(** ** The family file *)

(** X24: the script path and the protocol are there for the language codes of
    [langs] and for no other: any other code raises KeyError in both. *)
Theorem Family_methods_on_langs (code : string) :
  if dict_mem code Family.langs
  then Family.scriptpath code = Ok "/mediawiki"
       /\ Family.protocol code = Ok "https"
  else Family.scriptpath code = Raise KeyError
       /\ Family.protocol code = Raise KeyError.
Proof.
  unfold Family.langs, Family.scriptpath, Family.protocol, dict_index. simpl.
  destruct (String.eqb code "en"); repeat split.
Qed.

(** ** How the operations and the comparison go together *)

Section Updates.
Context `{L : PyLib}.

Lemma has_worksheet_add name w x n :
  has_worksheet (add_worksheet_info name w x) n
  = if String.eqb n name then true else has_worksheet x n.
Proof.
  unfold has_worksheet. simpl.
  destruct (String.eqb_spec n name) as [->|Hne].
  - apply dict_set_mem_same.
  - now apply dict_set_mem_other.
Qed.

Lemma worksheet_has_type_add name w x n t :
  worksheet_has_type (add_worksheet_info name w x) n t
  = if String.eqb n name then has_file_type w t else worksheet_has_type x n t.
Proof.
  unfold worksheet_has_type. simpl. rewrite !dict_mem_get.
  destruct (String.eqb_spec n name) as [->|Hne].
  - now rewrite dict_set_get_same.
  - now rewrite dict_set_get_other.
Qed.

(** A log with one event: the two sides differ in that event alone. *)
Lemma compare_single self old (a : ChangeItem) :
  dict_wf (worksheets self) -> dict_wf (worksheets old) ->
  (forall e, expected_event self old e = true <-> e = a) ->
  compare self (VLanguageInfo old) = Ok [a].
Proof.
  intros Hself Hold Hexp. rewrite compare_events. f_equal.
  apply Permutation_length_1_inv.
  apply (Permutation_count_occ ChangeItem_eq_dec). intros e.
  rewrite (@events_count L self old e Hself Hold). simpl.
  destruct (ChangeItem_eq_dec a e) as [<-|Hne].
  - now rewrite (proj2 (Hexp a) eq_refl).
  - destruct (expected_event self old e) eqn:E; [|reflexivity].
    apply Hexp in E. congruence.
Qed.
End Updates.

(** X25: a worksheet added under a name that was not there is what the
    comparison with the state before reports: one NEW_WORKSHEET event for
    that name, whatever files the worksheet has. *)
Theorem compare_after_add_worksheet_info {L : PyLib} (x : LanguageInfo)
  (name : string) (w : WorksheetInfo) :
  dict_wf (worksheets x) ->
  has_worksheet x name = false ->
  compare (add_worksheet_info name w x) (VLanguageInfo x)
  = Ok [mkChangeItem name NEW_WORKSHEET].
Proof.
  intros Hwf Hnew.
  apply compare_single; [now apply add_worksheet_info_wf | exact Hwf |].
  intros [n t]. unfold expected_event. simpl worksheet; simpl change_type.
  rewrite has_worksheet_add, !worksheet_has_type_add.
  destruct (String.eqb_spec n name) as [->|Hne].
  - rewrite Hnew, !(worksheet_has_type_absent x name _ Hnew).
    destruct t; simpl; split; intros H; try discriminate H; try reflexivity;
      try (injection H as H; discriminate H).
  - destruct t, (has_worksheet x n), (worksheet_has_type x n "pdf"),
      (worksheet_has_type x n "odt"); simpl; split; intros H;
      try discriminate H; try congruence.
Qed.

Lemma compare_after_add_worksheet_info_witness :
  dict_wf (worksheets Sample.before)
  /\ has_worksheet Sample.before "Healing" = false
  /\ compare (add_worksheet_info "Healing"
                (Sample.sheet "Healing" Sample.done [Sample.pdf "Healing"])
                Sample.before)
             (VLanguageInfo Sample.before)
     = Ok [mkChangeItem "Healing" NEW_WORKSHEET].
Proof.
  assert (H : dict_wf (worksheets Sample.before))
    by (unfold dict_wf; simpl; repeat constructor; simpl; intuition discriminate).
  split; [exact H | split; [reflexivity |]].
  exact (@compare_after_add_worksheet_info iso_text Sample.before "Healing"
           (Sample.sheet "Healing" Sample.done [Sample.pdf "Healing"])
           H eq_refl).
Defined.

(** X26: a pdf added to a worksheet that had none, the worksheet stored again
    under its name, is what the comparison with the state before reports:
    one NEW_PDF event for that name. *)
Theorem compare_after_add_pdf {L : PyLib} (x : LanguageInfo) (name : string)
  (w w' : WorksheetInfo) (f : FileInfo) :
  dict_wf (worksheets x) ->
  get_worksheet x name = Some w ->
  has_file_type w "pdf" = false ->
  file_type f = "pdf" ->
  add_file_info (Some f) None None w = Ok w' ->
  compare (add_worksheet_info name w' x) (VLanguageInfo x)
  = Ok [mkChangeItem name NEW_PDF].
Proof.
  intros Hwf Hget Hno Hpdf Hadd.
  rewrite get_worksheet_get in Hget.
  unfold add_file_info in Hadd. injection Hadd as <-. rewrite Hpdf.
  apply compare_single; [now apply add_worksheet_info_wf | exact Hwf |].
  intros [n t]. unfold expected_event. simpl worksheet; simpl change_type.
  rewrite has_worksheet_add, !worksheet_has_type_add.
  destruct (String.eqb_spec n name) as [->|Hne].
  - unfold has_worksheet, worksheet_has_type.
    rewrite (dict_get_mem _ _ Hget), Hget.
    unfold has_file_type in *. simpl _files.
    rewrite dict_set_mem_same, dict_set_mem_other by discriminate.
    rewrite Hno.
    destruct t, (dict_mem "odt" (_files w)); simpl; split; intros H;
      try discriminate H; try reflexivity;
      try (injection H as H; discriminate H).
  - destruct t, (has_worksheet x n), (worksheet_has_type x n "pdf"),
      (worksheet_has_type x n "odt"); simpl; split; intros H;
      try discriminate H; try congruence.
Qed.

Lemma compare_after_add_pdf_witness :
  dict_wf (worksheets Sample.now)
  /\ get_worksheet Sample.now "Prayer" = Some (Sample.sheet "Prayer" Sample.partial [])
  /\ has_file_type (Sample.sheet "Prayer" Sample.partial []) "pdf" = false
  /\ file_type (Sample.pdf "Prayer") = "pdf"
  /\ add_file_info (Some (Sample.pdf "Prayer")) None None
                   (Sample.sheet "Prayer" Sample.partial [])
     = Ok (Sample.sheet "Prayer" Sample.partial [Sample.pdf "Prayer"])
  /\ compare (add_worksheet_info "Prayer"
                (Sample.sheet "Prayer" Sample.partial [Sample.pdf "Prayer"])
                Sample.now)
             (VLanguageInfo Sample.now)
     = Ok [mkChangeItem "Prayer" NEW_PDF].
Proof.
  assert (H : dict_wf (worksheets Sample.now))
    by (unfold dict_wf; simpl; repeat constructor; simpl; intuition discriminate).
  split; [exact H|]. repeat (split; [reflexivity|]).
  exact (@compare_after_add_pdf iso_text Sample.now "Prayer"
           (Sample.sheet "Prayer" Sample.partial [])
           (Sample.sheet "Prayer" Sample.partial [Sample.pdf "Prayer"])
           (Sample.pdf "Prayer") H eq_refl eq_refl eq_refl eq_refl).
Defined.
